(** * Water Potability Predictor: a shallow embedding of [app.py]

    [app.py] is a Streamlit script: every interaction of the user re-runs it
    from the first line to the last.  One run is modelled as a computation in
    a small state-and-exception monad.  The state ([World]) records what the
    run has sent to the page, how long it has slept and which calls it has made
    on the unpickled objects; the inputs of a run ([Session]) are the content
    of [rf_model.pkl], what the user typed into the nine sidebar fields and
    whether the button was pressed.

    Python floats are IEEE 754 binary64 numbers and are modelled by Rocq's
    primitive floats; NumPy arrays by lists.  Streamlit, NumPy, pickle and the
    scikit-learn objects inside the pickle are libraries the script calls, not
    code of the repository: the few library functions the script uses are
    modelled next to their first use, each with a comment saying which
    documented behaviour is kept. *)

From Stdlib Require Import Floats List ZArith String Bool Lia.
Import ListNotations.

Set Implicit Arguments.

(** ** Python values *)

Module Py.

(** The exceptions that can reach the script. *)
Inductive exn : Type :=
| FileNotFoundError
| PermissionError
| UnpicklingError
| ValueError
| TypeError
| IndexError
| AttributeError
| KeyError
| StreamlitAPIException.

Definition result (A : Type) : Type := (A + exn)%type.

(** A one-dimensional and a two-dimensional array of floats, and the integer
    array [predict] returns. *)
Definition vector : Type := list float.
Definition matrix : Type := list vector.
Definition labels : Type := list Z.

(** An unpickled scikit-learn object, seen through the three methods the
    script calls on it.  A method the object lacks answers
    [inr AttributeError].  [n_features_in] is the attribute
    [n_features_in_] a fitted estimator carries; the script never reads
    it. *)
Record Estimator : Type := mkEstimator {
  n_features_in : nat;
  transform : matrix -> result matrix;
  predict : matrix -> result labels;
  predict_proba : matrix -> result matrix
}.

(** What [open("rf_model.pkl", "rb")] followed by [pickle.load] can meet. *)
Inductive FileState : Type :=
| Missing                          (* no such file *)
| Denied                           (* the file exists but cannot be opened *)
| Garbage                          (* the file opens but is not a pickle *)
| Pickled (objs : list Estimator)  (* the file unpickles to this sequence *)
| Failing (e : exn)                (* unpickling the file raises e *)
| Single (o : Estimator).          (* the file unpickles to one object,
                                      which is not a sequence *)

(** What [pickle.load] returns. *)
Inductive pickled : Type :=
| Sequence (objs : list Estimator)
| Object (o : Estimator).

End Py.
Import Py.

(** ** The page *)

(** An f-string: literal text and values formatted with [:.1%]. *)
Inductive piece : Type :=
| Lit (s : string)
| Pct1 (x : float).

Definition text : Type := list piece.

(** The two result cards.  Their HTML is kept as the card's class, its
    heading and its sentence. *)
Inductive card : Type :=
| safe_card
| unsafe_card.

(** What a run sends to the browser, in the order it is sent. *)
Inductive element : Type :=
| PageConfig (page_title : string)
| Style
| Markdown (body : string)
| InfoBox
| SidebarMarkdown (body : string)
| NumberInput (label : string) (min_value max_value value step : float)
              (help : string)
| Columns (spec : list Z)
| Button (label : string)
| Spinner (body : string)
| SpinnerDone
| Progress (value : Z)
| ProgressEmpty
| ResultCard (c : card) (heading sentence : string)
| Success (body : text)
| Error (body : text)
| Metric (label : string) (value delta : text)
| ProgressBar (value : float) (caption : text)
| Expander (label : string)
| Footer.

(** A call on one of the unpickled objects, with its argument. *)
Inductive call : Type :=
| CallTransform (x : matrix)
| CallPredict (x : matrix)
| CallPredictProba (x : matrix).

Record World : Type := mkWorld {
  screen : list element;   (* elements sent to the page, oldest first *)
  slept : list float;      (* the arguments of time.sleep, oldest first *)
  calls : list call        (* calls made on the unpickled objects *)
}.

(** The world a run starts in, and the world that holds what one world holds
    followed by what another holds. *)
Definition fresh : World := mkWorld [] [] [].

Definition join (w w' : World) : World :=
  mkWorld (screen w ++ screen w') (slept w ++ slept w') (calls w ++ calls w').

(** ** The monad of a script run *)

Inductive outcome (A : Type) : Type :=
| Ok (a : A) (w : World)          (* ran to the end *)
| Raise (e : exn) (w : World)     (* an exception nobody caught *)
| Stop (w : World).               (* st.stop() *)

Arguments Ok {A} a w.
Arguments Raise {A} e w.
Arguments Stop {A} w.

Definition M (A : Type) : Type := World -> outcome A.

Definition ret {A} (a : A) : M A := fun w => Ok a w.

Definition bind {A B} (m : M A) (k : A -> M B) : M B :=
  fun w =>
    match m w with
    | Ok a w' => k a w'
    | Raise e w' => Raise e w'
    | Stop w' => Stop w'
    end.

Definition raise {A} (e : exn) : M A := fun w => Raise e w.

Definition lift {A} (r : result A) : M A :=
  match r with
  | inl a => ret a
  | inr e => raise e
  end.

Declare Scope run_scope.
Delimit Scope run_scope with run.
Notation "x <- m ;; k" := (bind m (fun x => k))
  (at level 100, m at next level, right associativity) : run_scope.
Notation "m ;; k" := (bind m (fun _ => k))
  (at level 100, right associativity) : run_scope.
Open Scope run_scope.

(** [try: body  except FileNotFoundError: handler]. *)
Definition except_FileNotFoundError {A} (body handler : M A) : M A :=
  fun w =>
    match body w with
    | Raise FileNotFoundError w' => handler w'
    | o => o
    end.

(** [for i in range(n): body i]. *)
Fixpoint for_each {A} (l : list A) (body : A -> M unit) : M unit :=
  match l with
  | [] => ret tt
  | i :: rest => body i ;; for_each rest body
  end.

Definition range (n : nat) : list Z := map Z.of_nat (seq 0 n).

(** The world an outcome ends in, and an outcome without its world. *)
Definition world_of {A} (o : outcome A) : World :=
  match o with
  | Ok _ w => w
  | Raise _ w => w
  | Stop w => w
  end.

Inductive answer (A : Type) : Type :=
| Returned (a : A)
| Raised (e : exn)
| Stopped.

Arguments Returned {A} a.
Arguments Raised {A} e.
Arguments Stopped {A}.

Definition answer_of {A} (o : outcome A) : answer A :=
  match o with
  | Ok a _ => Returned a
  | Raise e _ => Raised e
  | Stop _ => Stopped
  end.

(** ** The library calls of the script *)

Set Warnings "-inexact-float".
Open Scope string_scope.
Open Scope float_scope.
Open Scope list_scope.

Definition emit (e : element) : M unit :=
  fun w => Ok tt (mkWorld (screen w ++ [e]) (slept w) (calls w)).

Definition time_sleep (secs : float) : M unit :=
  fun w => Ok tt (mkWorld (screen w) (slept w ++ [secs]) (calls w)).

Definition record_call (c : call) : M unit :=
  fun w => Ok tt (mkWorld (screen w) (slept w) (calls w ++ [c])).

Definition st_stop {A} : M A := fun w => Stop w.

(** Python's [x > y] on floats. *)
Definition gtb (x y : float) : bool := y <? x.

(** [a[i]] on a list or an array, for the non-negative constant indices the
    script uses. *)
Definition getitem {A} (a : list A) (i : nat) : M A :=
  match nth_error a i with
  | Some x => ret x
  | None => raise IndexError
  end.

(** [d[key]] on a dict with string keys. *)
Fixpoint dict_get (d : list (string * string)) (key : string) : result string :=
  match d with
  | [] => inr KeyError
  | (k, v) :: rest => if String.eqb k key then inl v else dict_get rest key
  end.

(** [st.sidebar.number_input(label, min_value, max_value, value, step, help)].
    Streamlit refuses a default [value] below [min_value] or above
    [max_value] with an exception.  The widget starts at [value]; an entry of
    the user is committed when it lies within the two bounds and is refused
    otherwise, the widget keeping the value it held.  [typed] lists the
    entries of the user since the page was opened, oldest first; the call
    returns the value the widget holds after them. *)
Definition commit (min_value max_value held entry : float) : float :=
  if (min_value <=? entry) && (entry <=? max_value) then entry else held.

Definition held (min_value max_value value : float) (typed : list float) : float :=
  fold_left (commit min_value max_value) typed value.

Definition number_input (label : string) (min_value max_value value step : float)
    (help : string) (typed : list float) : M float :=
  if gtb min_value value || (max_value <? value)
  then raise StreamlitAPIException
  else emit (NumberInput label min_value max_value value step help) ;;
       ret (held min_value max_value value typed).

(** [st.button(label)]: true in the run the press triggers. *)
Definition st_button (label : string) (pressed : bool) : M bool :=
  emit (Button label) ;; ret pressed.

(** [st.progress(n)] and [bar.progress(n)] with an integer: Streamlit accepts
    0 to 100 and raises otherwise. *)
Definition st_progress (n : Z) : M unit :=
  if ((0 <=? n) && (n <=? 100))%Z
  then emit (Progress n)
  else raise StreamlitAPIException.

(** [math.isclose(a, b, rel_tol=1e-9, abs_tol=1e-9)]. *)
Definition isclose (a b : float) : bool :=
  if a =? b then true
  else if is_infinity a || is_infinity b then false
  else
    let diff := abs (b - a) in
    (diff <=? abs (1e-9 * b)) || (diff <=? abs (1e-9 * a)) || (diff <=? 1e-9).

(** The test Streamlit makes on a float given to [st.progress]: between 0.0
    and 1.0, or close to one of the two. *)
Definition check_float_between (x : float) : bool :=
  ((0.0 <=? x) && (x <=? 1.0)) || isclose x 0.0 || isclose x 1.0.

(** [st.progress(x, text=...)] with a float: Streamlit raises when the test
    fails. *)
Definition st_progress_float (x : float) (caption : text) : M unit :=
  if check_float_between x
  then emit (ProgressBar x caption)
  else raise StreamlitAPIException.

(** [with st.spinner(body): block]: the spinner is removed when the block is
    left, also by an exception. *)
Definition with_spinner {A} (body : string) (block : M A) : M A :=
  fun w =>
    match (emit (Spinner body) ;; block) w with
    | Ok a w' => (emit SpinnerDone ;; ret a) w'
    | Raise e w' => (emit SpinnerDone ;; raise e) w'
    | Stop w' => (emit SpinnerDone ;; st_stop) w'
    end.

(** Calls on the unpickled objects are recorded before they are made. *)
Definition scaler_transform (scaler : Estimator) (x : matrix) : M matrix :=
  record_call (CallTransform x) ;; lift (transform scaler x).

Definition model_predict (model : Estimator) (x : matrix) : M labels :=
  record_call (CallPredict x) ;; lift (predict model x).

Definition model_predict_proba (model : Estimator) (x : matrix) : M matrix :=
  record_call (CallPredictProba x) ;; lift (predict_proba model x).

(** ** The inputs of a run *)

(** The nine sidebar fields. *)
Inductive field : Type :=
| PH | Hardness | Solids | Chloramines | Sulfate
| Conductivity | OrganicCarbon | Trihalomethanes | Turbidity.

Record Session : Type := mkSession {
  rf_model_pkl : FileState;       (* the content of rf_model.pkl *)
  typed : field -> list float;    (* what the user entered in each field *)
  pressed : bool                  (* the Analyze button triggered this run *)
}.

(** The nine top-level variables the sidebar assigns. *)
Record Inputs : Type := mkInputs {
  ph : float;
  hardness : float;
  solids : float;
  chloramines : float;
  sulfate : float;
  conductivity : float;
  organic_carbon : float;
  trihalomethanes : float;
  turbidity : float
}.

(** ** The script, section by section *)

(** 1 and 2: page configuration and style sheet. *)
Definition page_setup : M unit :=
  emit (PageConfig "Water Potability Predictor 💧") ;;
  emit Style.

(** 3: load the trained model and scaler.
<<
try:
    with open("rf_model.pkl", "rb") as file:
        model, scaler = pickle.load(file)
except FileNotFoundError:
    st.error("... Model file not found! ...")
    st.stop()
>> *)
Definition open_rb (f : FileState) : M FileState :=
  match f with
  | Missing => raise FileNotFoundError
  | Denied => raise PermissionError
  | _ => ret f
  end.

(** [pickle.load(file)]: unpickling runs the code the pickle names, so it
    can end by any exception, [FileNotFoundError] included. *)
Definition pickle_load (f : FileState) : M pickled :=
  match f with
  | Pickled objs => ret (Sequence objs)
  | Single o => ret (Object o)
  | Failing e => raise e
  | _ => raise UnpicklingError
  end.

Definition unpack2 {A} (l : list A) : M (A * A) :=
  match l with
  | [a; b] => ret (a, b)
  | _ => raise ValueError
  end.

(** [model, scaler = value]: a sequence is unpacked, an object that is not
    iterable raises [TypeError]. *)
Definition unpack (v : pickled) : M (Estimator * Estimator) :=
  match v with
  | Sequence objs => unpack2 objs
  | Object _ => raise TypeError
  end.

Definition model_not_found : text :=
  [Lit "⚠️ Model file not found! Please ensure 'rf_model.pkl' is in the same directory."].

Definition load_artifact (f : FileState) : M (Estimator * Estimator) :=
  except_FileNotFoundError
    (file <- open_rb f ;;
     value <- pickle_load file ;;
     unpack value)
    (emit (Error model_not_found) ;;
     st_stop).

(** 4: header. *)
Definition app_header : M unit :=
  emit (Markdown "💧 Water Potability Predictor") ;;
  emit (Markdown "Analyze water quality parameters to determine if water is safe to drink") ;;
  emit InfoBox.

(** 5: the sidebar collects the nine inputs. *)
Definition param_info : list (string * string) :=
  [ ("pH", "Acidity/alkalinity level (7 = neutral)");
    ("Hardness", "Mineral content in water");
    ("Solids", "Total dissolved solids");
    ("Chloramines", "Disinfectant level");
    ("Sulfate", "Sulfate concentration");
    ("Conductivity", "Electrical conductivity");
    ("Organic Carbon", "Organic matter content");
    ("Trihalomethanes", "Disinfection byproducts");
    ("Turbidity", "Water cloudiness") ].

Definition sidebar (s : Session) : M Inputs :=
  emit (SidebarMarkdown "### 🔬 Water Quality Parameters") ;;
  emit (SidebarMarkdown "---") ;;
  help <- lift (dict_get param_info "pH") ;;
  ph <- number_input "🧪 pH Level" 0.0 14.0 7.0 0.1 help (typed s PH) ;;
  emit (SidebarMarkdown "Normal range: 6.5 - 8.5") ;;
  help <- lift (dict_get param_info "Hardness") ;;
  hardness <- number_input "💎 Hardness (mg/L)" 0.0 500.0 150.0 1.0 help
                (typed s Hardness) ;;
  emit (SidebarMarkdown "Soft: <75, Hard: >150") ;;
  help <- lift (dict_get param_info "Solids") ;;
  solids <- number_input "⚪ Solids (ppm)" 0.0 60000.0 20000.0 100.0 help
              (typed s Solids) ;;
  emit (SidebarMarkdown "WHO limit: <1000 ppm") ;;
  help <- lift (dict_get param_info "Chloramines") ;;
  chloramines <- number_input "🧬 Chloramines (ppm)" 0.0 10.0 7.0 0.1 help
                   (typed s Chloramines) ;;
  emit (SidebarMarkdown "Safe level: <4 ppm") ;;
  help <- lift (dict_get param_info "Sulfate") ;;
  sulfate <- number_input "⚗️ Sulfate (mg/L)" 0.0 600.0 330.0 1.0 help
               (typed s Sulfate) ;;
  emit (SidebarMarkdown "WHO limit: <500 mg/L") ;;
  help <- lift (dict_get param_info "Conductivity") ;;
  conductivity <- number_input "⚡ Conductivity (μS/cm)" 0.0 800.0 400.0 1.0 help
                    (typed s Conductivity) ;;
  emit (SidebarMarkdown "Pure water: 0.5-3 μS/cm") ;;
  help <- lift (dict_get param_info "Organic Carbon") ;;
  organic_carbon <- number_input "🌿 Organic Carbon (ppm)" 0.0 30.0 10.0 0.1 help
                      (typed s OrganicCarbon) ;;
  emit (SidebarMarkdown "Lower is better") ;;
  help <- lift (dict_get param_info "Trihalomethanes") ;;
  trihalomethanes <- number_input "☢️ Trihalomethanes (μg/L)" 0.0 120.0 60.0 1.0 help
                       (typed s Trihalomethanes) ;;
  emit (SidebarMarkdown "EPA limit: <80 μg/L") ;;
  help <- lift (dict_get param_info "Turbidity") ;;
  turbidity <- number_input "🌫️ Turbidity (NTU)" 0.0 10.0 3.0 0.1 help
                 (typed s Turbidity) ;;
  emit (SidebarMarkdown "WHO limit: <5 NTU") ;;
  ret (mkInputs ph hardness solids chloramines sulfate
                conductivity organic_carbon trihalomethanes turbidity).

(** [input_data = np.array([[ph, hardness, solids, chloramines, sulfate,
    conductivity, organic_carbon, trihalomethanes, turbidity]])]. *)
Definition input_data (i : Inputs) : matrix :=
  [[ph i; hardness i; solids i; chloramines i; sulfate i;
    conductivity i; organic_carbon i; trihalomethanes i; turbidity i]].

(** 7: the prediction section.  The loading animation is a parameter of the
    block under the spinner, so that the block can be compared with the one
    that has no animation; the script runs it with [loading_animation]. *)
Definition loading_animation : M unit :=
  st_progress 0 ;;
  for_each (range 100)
    (fun i => time_sleep 0.01 ;; st_progress (i + 1)).

Record Prediction : Type := mkPrediction {
  pred : labels;
  prob_potable : float;
  prob_not_potable : float
}.

Definition make_prediction (animation : M unit) (model : Estimator)
    (input_scaled : matrix) : M Prediction :=
  with_spinner ""
    (animation ;;
     pred <- model_predict model input_scaled ;;
     proba <- model_predict_proba model input_scaled ;;
     prob <- getitem proba 0 ;;
     prob_potable <- getitem prob 1 ;;
     prob_not_potable <- getitem prob 0 ;;
     emit ProgressEmpty ;;
     ret (mkPrediction pred prob_potable prob_not_potable)).

(** The two arms of the conditional that computes a metric's delta, and the
    conditional. *)
Definition delta_above (p : float) : text := [Pct1 (p - 0.5)].
Definition delta_otherwise (p : float) : text := [Pct1 (p - 0.5)].

Definition metric_delta (p : float) : text :=
  if gtb p 0.5 then delta_above p else delta_otherwise p.

Definition display_results (r : Prediction) : M unit :=
  emit (Markdown "### 📊 Analysis Results") ;;
  label <- getitem (pred r) 0 ;;
  (if (label =? 1)%Z
   then
     emit (ResultCard safe_card "✅ POTABLE WATER"
             "This water is safe to drink based on the provided parameters.") ;;
     emit (Success [Lit "**Confidence Level:** "; Pct1 (prob_potable r)])
   else
     emit (ResultCard unsafe_card "❌ NOT POTABLE"
             "This water is unsafe to drink. Further treatment required.") ;;
     emit (Error [Lit "**Confidence Level:** "; Pct1 (prob_not_potable r)])) ;;
  emit (Markdown "### 📈 Confidence Breakdown") ;;
  emit (Columns [1; 1]%Z) ;;
  emit (Metric "Safe to Drink" [Pct1 (prob_potable r)]
          (metric_delta (prob_potable r))) ;;
  emit (Metric "Unsafe to Drink" [Pct1 (prob_not_potable r)]
          (metric_delta (prob_not_potable r))) ;;
  emit (Markdown "**Probability Distribution:**") ;;
  st_progress_float (prob_potable r) [Lit "Potable: "; Pct1 (prob_potable r)] ;;
  st_progress_float (prob_not_potable r)
    [Lit "Not Potable: "; Pct1 (prob_not_potable r)].

Definition prediction_section (animation : M unit) (model : Estimator)
    (input_scaled : matrix) (s : Session) : M unit :=
  emit (Markdown "---") ;;
  emit (Columns [1; 2; 1]%Z) ;;
  predict_button <- st_button "🔍 Analyze Water Quality" (pressed s) ;;
  if predict_button
  then r <- make_prediction animation model input_scaled ;;
       display_results r
  else ret tt.

(** 8 and 9: information section and footer. *)
Definition about_parameters : string :=
  "
    **pH Level:** Measures acidity/alkalinity. Safe drinking water typically has pH between 6.5-8.5.
    
    **Hardness:** Indicates mineral content, primarily calcium and magnesium.
    
    **Solids:** Total dissolved solids (TDS) measure all organic and inorganic substances.
    
    **Chloramines:** Disinfectant used in water treatment, should be kept at safe levels.
    
    **Sulfate:** Naturally occurring mineral, excessive amounts can cause digestive issues.
    
    **Conductivity:** Measures water's ability to conduct electricity, indicating ion concentration.
    
    **Organic Carbon:** Indicates organic matter, which can affect taste and support bacterial growth.
    
    **Trihalomethanes:** Byproducts of chlorination, potential health concern at high levels.
    
    **Turbidity:** Measure of water clarity, high values indicate suspended particles.
    ".

Definition closing : M unit :=
  emit (Expander "📚 About Water Quality Parameters") ;;
  emit (Markdown about_parameters) ;;
  emit (Markdown "---") ;;
  emit Footer.

(** The whole script, with the animation it runs under the spinner. *)
Definition script (animation : M unit) (s : Session) : M unit :=
  page_setup ;;
  artifact <- load_artifact (rf_model_pkl s) ;;
  let (model, scaler) := artifact in
  app_header ;;
  inputs <- sidebar s ;;
  input_scaled <- scaler_transform scaler (input_data inputs) ;;
  prediction_section animation model input_scaled s ;;
  closing.

Definition app (s : Session) : M unit := script loading_animation s.

(** ** Objects to run the script on *)

Module Fixtures.

Definition has_width (n : nat) (x : matrix) : bool :=
  forallb (fun row => Nat.eqb (List.length row) n) x.

Fixpoint zip_with {A B C} (f : A -> B -> C) (l : list A) (l' : list B) : list C :=
  match l, l' with
  | a :: r, b :: r' => f a b :: zip_with f r r'
  | _, _ => []
  end.

(** A scaler in the manner of [StandardScaler]: it refuses a matrix whose
    rows do not have one column per fitted mean, and centres and scales the
    columns of the others. *)
Definition standard_scaler (mean scale : vector) : Estimator :=
  {| n_features_in := List.length mean;
     transform := fun x =>
       if has_width (List.length mean) x
       then inl (map (fun row =>
               zip_with (fun v ms => (v - fst ms) / snd ms) row
                 (combine mean scale)) x)
       else inr ValueError;
     predict := fun _ => inr AttributeError;
     predict_proba := fun _ => inr AttributeError |}.

(** A classifier with one split: column [col] against [threshold], a pair
    of class probabilities on each side, the label being the more probable
    class.  It refuses a matrix that does not have [n] columns. *)
Definition leaf (threshold : float) (low high : float * float) (v : float)
    : float * float :=
  if v <=? threshold then low else high.

Definition stump (n col : nat) (threshold : float) (low high : float * float)
    : Estimator :=
  {| n_features_in := n;
     transform := fun _ => inr AttributeError;
     predict := fun x =>
       if has_width n x
       then inl (map (fun row =>
               let p := leaf threshold low high (nth col row 0.0) in
               if fst p <? snd p then 1%Z else 0%Z) x)
       else inr ValueError;
     predict_proba := fun x =>
       if has_width n x
       then inl (map (fun row =>
               let p := leaf threshold low high (nth col row 0.0) in
               [fst p; snd p]) x)
       else inr ValueError |}.

(** A transformer that applies a function to every entry and checks
    nothing, in the manner of [FunctionTransformer]; [n] is the number of
    columns it was fitted on. *)
Definition entrywise (n : nat) (f : float -> float) : Estimator :=
  {| n_features_in := n;
     transform := fun x => inl (map (map f) x);
     predict := fun _ => inr AttributeError;
     predict_proba := fun _ => inr AttributeError |}.

(** A classifier that reads column [col] of whatever it is given. *)
Definition loose_stump (n col : nat) (threshold : float)
    (low high : float * float) : Estimator :=
  {| n_features_in := n;
     transform := fun _ => inr AttributeError;
     predict := fun x =>
       inl (map (fun row =>
              let p := leaf threshold low high (nth col row 0.0) in
              if fst p <? snd p then 1%Z else 0%Z) x);
     predict_proba := fun x =>
       inl (map (fun row =>
              let p := leaf threshold low high (nth col row 0.0) in
              [fst p; snd p]) x) |}.

Definition means : vector :=
  [7.0; 196.0; 22014.0; 7.0; 333.0; 426.0; 14.0; 66.0; 4.0].
Definition scales : vector :=
  [1.5; 33.0; 8768.0; 1.5; 36.0; 81.0; 3.0; 16.0; 0.75].

Definition scaler9 : Estimator := standard_scaler means scales.
Definition model9 : Estimator := stump 9 5 0.0 (0.25, 0.75) (0.625, 0.375).

Definition untouched : field -> list float := fun _ => [].

Definition session9 : Session :=
  mkSession (Pickled [model9; scaler9]) untouched true.

End Fixtures.

(** * Reading a run *)

(** ** Grafting what a run does onto a world *)

Definition graft {A} (w : World) (o : outcome A) : outcome A :=
  match o with
  | Ok a w' => Ok a (join w w')
  | Raise e w' => Raise e (join w w')
  | Stop w' => Stop (join w w')
  end.

Definition oblivious {A} (m : M A) : Prop :=
  forall w, m w = graft w (m fresh).

(** What a program does when started anywhere follows from what it does in
    the fresh world. *)
Definition shown {A} (m : M A) : list element := screen (world_of (m fresh)).
Definition called {A} (m : M A) : list call := calls (world_of (m fresh)).

(** ** The feature vector of the specification *)

(** The order the specification fixes for the nine measurements, and the
    script variable that holds each. *)
Definition trained_order : list field :=
  [PH; Hardness; Solids; Chloramines; Sulfate;
   Conductivity; OrganicCarbon; Trihalomethanes; Turbidity].

Definition field_value (i : Inputs) (f : field) : float :=
  match f with
  | PH => ph i
  | Hardness => hardness i
  | Solids => solids i
  | Chloramines => chloramines i
  | Sulfate => sulfate i
  | Conductivity => conductivity i
  | OrganicCarbon => organic_carbon i
  | Trihalomethanes => trihalomethanes i
  | Turbidity => turbidity i
  end.

(** ** Reading a verdict off the page *)

Inductive narrative : Type :=
| potable
| not_potable.

Definition narrative_of (e : element) : option narrative :=
  match e with
  | ResultCard safe_card _ _ => Some potable
  | ResultCard unsafe_card _ _ => Some not_potable
  | _ => None
  end.

Definition confidence_of (e : element) : option float :=
  match e with
  | Success [Lit _; Pct1 x] => Some x
  | Error [Lit _; Pct1 x] => Some x
  | _ => None
  end.

Fixpoint pick {A B} (f : A -> option B) (l : list A) : list B :=
  match l with
  | [] => []
  | a :: rest =>
      match f a with
      | Some b => b :: pick f rest
      | None => pick f rest
      end
  end.

(** The narratives and the confidences a page shows, in order. *)
Definition verdicts (page : list element) : list narrative * list float :=
  (pick narrative_of page, pick confidence_of page).

(** ** The interface table *)

(** The interface table of the specification: minimum, maximum, default and
    step of each field. *)
Record row : Type := mkRow {
  row_min : float;
  row_max : float;
  row_default : float;
  row_step : float
}.

Definition interface_table (f : field) : row :=
  match f with
  | PH => mkRow 0.0 14.0 7.0 0.1
  | Hardness => mkRow 0.0 500.0 150.0 1.0
  | Solids => mkRow 0.0 60000.0 20000.0 100.0
  | Chloramines => mkRow 0.0 10.0 7.0 0.1
  | Sulfate => mkRow 0.0 600.0 330.0 1.0
  | Conductivity => mkRow 0.0 800.0 400.0 1.0
  | OrganicCarbon => mkRow 0.0 30.0 10.0 0.1
  | Trihalomethanes => mkRow 0.0 120.0 60.0 1.0
  | Turbidity => mkRow 0.0 10.0 3.0 0.1
  end.

Definition within (f : field) (v : float) : bool :=
  (row_min (interface_table f) <=? v) && (v <=? row_max (interface_table f)).

(** What a field of the table holds after the entries of the user. *)
Definition table_value (s : Session) (f : field) : float :=
  held (row_min (interface_table f)) (row_max (interface_table f))
       (row_default (interface_table f)) (typed s f).

Definition collected (s : Session) : Inputs :=
  mkInputs (table_value s PH) (table_value s Hardness) (table_value s Solids)
           (table_value s Chloramines) (table_value s Sulfate)
           (table_value s Conductivity) (table_value s OrganicCarbon)
           (table_value s Trihalomethanes) (table_value s Turbidity).

(** The elements the sidebar sends; they do not depend on the session. *)
Definition sidebar_page : list element :=
  Eval cbv in shown (sidebar (mkSession Missing (fun _ => []) false)).

(** ** The pages and the calls of a request *)

(** What the page holds when the sidebar is complete. *)
Definition front_page : list element :=
  Eval cbv in shown (page_setup ;; app_header) ++ sidebar_page.

(** What the script does once the sidebar has returned. *)
Definition respond (animation : M unit) (model scaler : Estimator)
    (s : Session) : M unit :=
  input_scaled <- scaler_transform scaler (input_data (collected s)) ;;
  prediction_section animation model input_scaled s ;;
  closing.

(** What the loading animation adds to a world. *)
Definition animation_world : World :=
  mkWorld (map Progress (range 101)) (repeat 0.01 100) [].

(** What the calls under the spinner amount to: the record they build or the
    exception they end with, and the calls they make on the model. *)
Definition predicted (model : Estimator) (xs : matrix) : result Prediction :=
  match predict model xs with
  | inr e => inr e
  | inl pred =>
      match predict_proba model xs with
      | inr e => inr e
      | inl ((p0 :: p1 :: _) :: _) => inl (mkPrediction pred p1 p0)
      | inl _ => inr IndexError
      end
  end.

Definition asked (model : Estimator) (xs : matrix) : list call :=
  CallPredict xs ::
  match predict model xs with
  | inl _ => [CallPredictProba xs]
  | inr _ => []
  end.

Definition finish {A} (r : result A) (w : World) : outcome A :=
  match r with
  | inl a => Ok a w
  | inr e => Raise e w
  end.

(** What the page holds when the loader is reached. *)
Definition setup_page : list element :=
  [PageConfig "Water Potability Predictor 💧"; Style].

Definition is_widget (e : element) : bool :=
  match e with
  | NumberInput _ _ _ _ _ _ | Button _ => true
  | _ => false
  end.

(** The row a number input was declared with. *)
Definition declared (e : element) : option row :=
  match e with
  | NumberInput _ lo hi v st _ => Some (mkRow lo hi v st)
  | _ => None
  end.

(** The button row, the footer, and the time slept under the spinner. *)
Definition button_page : list element :=
  [Markdown "---"; Columns [1; 2; 1]%Z; Button "🔍 Analyze Water Quality"].

Definition closing_page : list element :=
  [Expander "📚 About Water Quality Parameters"; Markdown about_parameters;
   Markdown "---"; Footer].

Definition naps : list float := repeat 0.01 100.

(** The spinner and the bar, when the calls under the spinner raised and when
    they returned. *)
Definition waiting_page : list element :=
  Spinner "" :: map Progress (range 101) ++ [SpinnerDone].

Definition waited_page : list element :=
  Spinner "" :: map Progress (range 101) ++ [ProgressEmpty; SpinnerDone].

Definition is_transform (c : call) : bool :=
  match c with
  | CallTransform _ => true
  | _ => false
  end.

Definition argument (c : call) : matrix :=
  match c with
  | CallTransform x | CallPredict x | CallPredictProba x => x
  end.

(** ** The trained artifact *)

(** A matrix of [rows] rows of [cols] columns. *)
Definition shaped (rows cols : nat) (x : matrix) : bool :=
  Nat.eqb (List.length x) rows &&
  forallb (fun r => Nat.eqb (List.length r) cols) x.



(** ** Pages apart from the progress bar *)

(** The elements of the progress bar. *)
Definition is_progress (e : element) : bool :=
  match e with
  | Progress _ | ProgressEmpty => true
  | _ => false
  end.

(** A page without its progress-bar elements. *)
Definition lasting (page : list element) : list element :=
  filter (fun e => negb (is_progress e)) page.

(** Two worlds are alike when they differ in the progress bar and in the
    time slept only; two outcomes are alike when they end the same way in
    worlds that are alike. *)
Definition alike (w1 w2 : World) : Prop :=
  lasting (screen w1) = lasting (screen w2) /\ calls w1 = calls w2.

Definition same_result {A} (o1 o2 : outcome A) : Prop :=
  answer_of o1 = answer_of o2 /\ alike (world_of o1) (world_of o2).

Definition simulates {A} (m1 m2 : M A) : Prop :=
  forall w1 w2, alike w1 w2 -> same_result (m1 w1) (m2 w2).

(** ** Objects fitted on eight columns *)

Module Mismatch.

(** A scaler and a model fitted on eight columns.  The strict scaler
    refuses the nine columns of the script; the loose pair checks nothing
    and answers. *)
Definition strict_scaler : Estimator :=
  Fixtures.standard_scaler (removelast Fixtures.means)
                           (removelast Fixtures.scales).

Definition loose_scaler : Estimator :=
  Fixtures.entrywise 8 (fun v => v / 2.0).

Definition loose_model : Estimator :=
  Fixtures.loose_stump 8 5 250.0 (0.25, 0.75) (0.625, 0.375).

Definition strict : Session :=
  mkSession (Pickled [Fixtures.model9; strict_scaler]) Fixtures.untouched true.

Definition loose : Session :=
  mkSession (Pickled [loose_model; loose_scaler]) Fixtures.untouched true.

End Mismatch.

(** ** Invariants of the page *)

(** A program keeps [p] when it sends only elements [p] accepts. *)
Definition keeps {A} (p : element -> bool) (m : M A) : Prop :=
  forall w, forallb p (screen w) = true ->
            forallb p (screen (world_of (m w))) = true.

Definition is_page_config (e : element) : bool :=
  match e with
  | PageConfig _ => true
  | _ => false
  end.

Definition is_number_input (e : element) : bool :=
  match e with
  | NumberInput _ _ _ _ _ _ => true
  | _ => false
  end.

(** An [st.error] whose body is plain text, as the loader's message is. *)
Definition is_notice (e : element) : bool :=
  match e with
  | Error [Lit _] => true
  | _ => false
  end.

Definition is_button (e : element) : bool :=
  match e with
  | Button _ => true
  | _ => false
  end.

Definition is_footer (e : element) : bool :=
  match e with
  | Footer => true
  | _ => false
  end.

Definition is_returned {A} (a : answer A) : bool :=
  match a with
  | Returned _ => true
  | _ => false
  end.

(** The label, the value and the delta of a metric. *)
Definition breakdown_of (e : element) : option (string * float * float) :=
  match e with
  | Metric label [Pct1 v] [Pct1 d] => Some (label, v, d)
  | _ => None
  end.

(** ** A classifier of three classes *)

Module ThreeClasses.

(** It answers class 2 with probabilities 0.25, 0.25 and 0.5 for every row of
    nine columns. *)
Definition model : Estimator :=
  {| n_features_in := 9;
     transform := fun _ => inr AttributeError;
     predict := fun x =>
       if Fixtures.has_width 9 x then inl (map (fun _ => 2%Z) x)
       else inr ValueError;
     predict_proba := fun x =>
       if Fixtures.has_width 9 x then inl (map (fun _ => [0.25; 0.25; 0.5]) x)
       else inr ValueError |}.

End ThreeClasses.

(** * Properties *)

(** ** Worlds form a monoid, and the script never looks back

    No call of the script reads the world: a run started in [w] does what
    the run started in the fresh world does, after what [w] holds. *)

Lemma join_fresh_l (w : World) : join fresh w = w.
Proof. destruct w; reflexivity. Qed.

Lemma join_fresh_r (w : World) : join w fresh = w.
Proof. destruct w; unfold join; simpl; now rewrite !app_nil_r. Qed.

Lemma join_assoc (w1 w2 w3 : World) :
  join w1 (join w2 w3) = join (join w1 w2) w3.
Proof. unfold join; simpl; now rewrite !app_assoc. Qed.

Lemma graft_fresh {A} (o : outcome A) : graft fresh o = o.
Proof. destruct o; simpl; now rewrite join_fresh_l. Qed.

Lemma graft_graft {A} (w w' : World) (o : outcome A) :
  graft w (graft w' o) = graft (join w w') o.
Proof. destruct o; simpl; now rewrite join_assoc. Qed.

Lemma answer_of_graft {A} (w : World) (o : outcome A) :
  answer_of (graft w o) = answer_of o.
Proof. now destruct o. Qed.

Lemma world_of_graft {A} (w : World) (o : outcome A) :
  world_of (graft w o) = join w (world_of o).
Proof. now destruct o. Qed.

Create HintDb oblivious.

Section Oblivious.

Context {A B : Type}.

Lemma oblivious_ret (a : A) : oblivious (ret a).
Proof. intro w; simpl; now rewrite join_fresh_r. Qed.

Lemma oblivious_raise (e : exn) : oblivious (@raise A e).
Proof. intro w; simpl; now rewrite join_fresh_r. Qed.

Lemma oblivious_st_stop : oblivious (@st_stop A).
Proof. intro w; simpl; unfold st_stop; now rewrite join_fresh_r. Qed.

Lemma oblivious_lift (r : result A) : oblivious (lift r).
Proof. destruct r; [apply oblivious_ret | apply oblivious_raise]. Qed.

Lemma oblivious_bind (m : M A) (k : A -> M B) :
  oblivious m -> (forall a, oblivious (k a)) -> oblivious (bind m k).
Proof.
  intros Hm Hk w. unfold bind.
  rewrite (Hm w). destruct (m fresh) as [a w0 | e w0 | w0]; simpl; trivial.
  rewrite (Hk a (join w w0)), (Hk a w0). now rewrite graft_graft.
Qed.

Lemma oblivious_getitem (a : list A) (i : nat) : oblivious (getitem a i).
Proof.
  unfold getitem. destruct (nth_error a i);
    [apply oblivious_ret | apply oblivious_raise].
Qed.

Lemma oblivious_except (body handler : M A) :
  oblivious body -> oblivious handler ->
  oblivious (except_FileNotFoundError body handler).
Proof.
  intros Hb Hh w. unfold except_FileNotFoundError.
  rewrite (Hb w). destruct (body fresh) as [a w0 | e w0 | w0]; simpl; trivial.
  destruct e; simpl; trivial.
  rewrite (Hh (join w w0)), (Hh w0). now rewrite graft_graft.
Qed.

End Oblivious.

Lemma oblivious_unpack2 {A} (l : list A) : oblivious (unpack2 l).
Proof.
  destruct l as [|a [|b [|c l]]]; simpl;
    first [apply oblivious_ret | apply oblivious_raise].
Qed.

Lemma oblivious_unpack (v : pickled) : oblivious (unpack v).
Proof.
  destruct v; simpl; [apply oblivious_unpack2 | apply oblivious_raise].
Qed.

Lemma oblivious_emit (e : element) : oblivious (emit e).
Proof. intro w; unfold emit, graft, join; simpl; now rewrite !app_nil_r. Qed.

Lemma oblivious_time_sleep (secs : float) : oblivious (time_sleep secs).
Proof. intro w; unfold time_sleep, graft, join; simpl; now rewrite !app_nil_r. Qed.

Lemma oblivious_record_call (c : call) : oblivious (record_call c).
Proof. intro w; unfold record_call, graft, join; simpl; now rewrite !app_nil_r. Qed.

#[export] Hint Resolve oblivious_ret oblivious_raise oblivious_st_stop
  oblivious_lift oblivious_getitem oblivious_unpack2 oblivious_unpack
  oblivious_emit
  oblivious_time_sleep oblivious_record_call : oblivious.

(** Splits a sequence of binds and closes the calls the hints know. *)
Ltac oblivious :=
  repeat lazymatch goal with
    | |- oblivious (bind _ _) => apply oblivious_bind; [| intros ?]
    | |- oblivious (except_FileNotFoundError _ _) => apply oblivious_except
    | |- oblivious _ => solve [auto with oblivious]
    end.

Lemma oblivious_for_each {A} (l : list A) (body : A -> M unit) :
  (forall i, oblivious (body i)) -> oblivious (for_each l body).
Proof.
  intro Hbody. induction l as [|i rest IH]; simpl.
  - apply oblivious_ret.
  - apply oblivious_bind; [apply Hbody | intros _; exact IH].
Qed.

Lemma oblivious_with_spinner {A} (body : string) (block : M A) :
  oblivious block -> oblivious (with_spinner body block).
Proof.
  intros Hb w. unfold with_spinner.
  assert (Hs : oblivious (emit (Spinner body) ;; block)) by oblivious.
  rewrite (Hs w).
  destruct ((emit (Spinner body) ;; block) fresh) as [a w0 | e w0 | w0];
    cbn [graft].
  - assert (Hd : oblivious (emit SpinnerDone ;; ret a)) by oblivious.
    rewrite (Hd (join w w0)), (Hd w0). now rewrite graft_graft.
  - assert (Hd : oblivious (emit SpinnerDone ;; @raise A e)) by oblivious.
    rewrite (Hd (join w w0)), (Hd w0). now rewrite graft_graft.
  - assert (Hd : oblivious (emit SpinnerDone ;; @st_stop A)) by oblivious.
    rewrite (Hd (join w w0)), (Hd w0). now rewrite graft_graft.
Qed.

Lemma oblivious_number_input label min_value max_value value step help typed :
  oblivious (number_input label min_value max_value value step help typed).
Proof.
  unfold number_input.
  destruct (gtb min_value value || (max_value <? value)); oblivious.
Qed.

Lemma oblivious_st_button label pressed : oblivious (st_button label pressed).
Proof. unfold st_button; oblivious. Qed.

Lemma oblivious_st_progress n : oblivious (st_progress n).
Proof. unfold st_progress; destruct ((0 <=? n) && (n <=? 100))%Z; oblivious. Qed.

Lemma oblivious_st_progress_float x caption :
  oblivious (st_progress_float x caption).
Proof.
  unfold st_progress_float; destruct (check_float_between x); oblivious.
Qed.

Lemma oblivious_scaler_transform scaler x : oblivious (scaler_transform scaler x).
Proof. unfold scaler_transform; oblivious. Qed.

Lemma oblivious_model_predict model x : oblivious (model_predict model x).
Proof. unfold model_predict; oblivious. Qed.

Lemma oblivious_model_predict_proba model x :
  oblivious (model_predict_proba model x).
Proof. unfold model_predict_proba; oblivious. Qed.

#[export] Hint Resolve oblivious_number_input oblivious_st_button
  oblivious_st_progress oblivious_st_progress_float oblivious_scaler_transform
  oblivious_model_predict oblivious_model_predict_proba : oblivious.

Lemma oblivious_page_setup : oblivious page_setup.
Proof. unfold page_setup; oblivious. Qed.

Lemma oblivious_load_artifact f : oblivious (load_artifact f).
Proof.
  unfold load_artifact; oblivious.
  - destruct f; simpl; oblivious.
  - match goal with a : FileState |- _ => destruct a end; simpl; oblivious.
Qed.

Lemma oblivious_app_header : oblivious app_header.
Proof. unfold app_header; oblivious. Qed.

Lemma oblivious_sidebar s : oblivious (sidebar s).
Proof. unfold sidebar; oblivious. Qed.

Lemma oblivious_loading_animation : oblivious loading_animation.
Proof.
  unfold loading_animation.
  apply oblivious_bind; [apply oblivious_st_progress | intros _].
  apply oblivious_for_each; intros i; oblivious.
Qed.

Lemma oblivious_make_prediction animation model input_scaled :
  oblivious animation ->
  oblivious (make_prediction animation model input_scaled).
Proof.
  intro Ha. unfold make_prediction.
  apply oblivious_with_spinner; oblivious.
Qed.

Lemma oblivious_display_results r : oblivious (display_results r).
Proof.
  unfold display_results; oblivious.
  match goal with |- context [(?l =? 1)%Z] => destruct (l =? 1)%Z end;
    oblivious.
Qed.

Lemma oblivious_closing : oblivious closing.
Proof. unfold closing; oblivious. Qed.

#[export] Hint Resolve oblivious_page_setup oblivious_load_artifact
  oblivious_app_header oblivious_sidebar oblivious_loading_animation
  oblivious_make_prediction oblivious_display_results oblivious_closing
  : oblivious.

Lemma oblivious_prediction_section animation model input_scaled s :
  oblivious animation ->
  oblivious (prediction_section animation model input_scaled s).
Proof.
  intro Ha. unfold prediction_section; oblivious.
  match goal with b : bool |- _ => destruct b end; oblivious.
Qed.

Lemma oblivious_script animation s :
  oblivious animation -> oblivious (script animation s).
Proof.
  intro Ha. unfold script; oblivious.
  match goal with a : (Estimator * Estimator)%type |- _ =>
    destruct a as [model scaler] end; oblivious.
  now apply oblivious_prediction_section.
Qed.

Lemma oblivious_app s : oblivious (app s).
Proof. apply oblivious_script, oblivious_loading_animation. Qed.

Lemma answer_anywhere {A} (m : M A) (w : World) :
  oblivious m -> answer_of (m w) = answer_of (m fresh).
Proof. intro H. rewrite (H w). apply answer_of_graft. Qed.

Lemma screen_anywhere {A} (m : M A) (w : World) :
  oblivious m -> screen (world_of (m w)) = screen w ++ shown m.
Proof. intro H. rewrite (H w), world_of_graft. reflexivity. Qed.

Lemma calls_anywhere {A} (m : M A) (w : World) :
  oblivious m -> calls (world_of (m w)) = calls w ++ called m.
Proof. intro H. rewrite (H w), world_of_graft. reflexivity. Qed.

(** ** The script on concrete inputs *)

(** With every field untouched the scaler is called on the nine defaults,
    and the fixture model, which reads the scaled conductivity, answers
    potable with probability 0.75. *)
Example default_request :
  called (app Fixtures.session9) =
    [CallTransform [[7.0; 150.0; 20000.0; 7.0; 330.0; 400.0; 10.0; 60.0; 3.0]];
     CallPredict (argument (nth 1 (called (app Fixtures.session9))
                              (CallPredict [])));
     CallPredictProba (argument (nth 2 (called (app Fixtures.session9))
                                   (CallPredict [])))] /\
  verdicts (shown (app Fixtures.session9)) = ([potable], [0.75]) /\
  answer_of (app Fixtures.session9 fresh) = Returned tt.
Proof. split; [| split]; vm_compute; reflexivity. Qed.

(** An entry of 20 in the pH field is refused, one of 14 is kept. *)
Example ph_entries :
  held 0.0 14.0 7.0 [20.0] = 7.0 /\ held 0.0 14.0 7.0 [20.0; 14.0] = 14.0.
Proof. split; reflexivity. Qed.

(** Without the button the scaler is still called, and nothing else. *)
Example idle_run :
  let s := mkSession (Pickled [Fixtures.model9; Fixtures.scaler9])
                     Fixtures.untouched false in
  filter is_transform (called (app s)) = called (app s) /\
  List.length (called (app s)) = 1%nat /\
  verdicts (shown (app s)) = ([], []).
Proof. split; [| split]; vm_compute; reflexivity. Qed.

(** [st.progress] accepts a float one step above 1.0 or a little below
    0.0, and refuses one further away and every NaN. *)
Example progress_tolerance :
  check_float_between (next_up 1.0) = true /\
  check_float_between (-1e-10) = true /\
  check_float_between 1.000001 = false /\
  check_float_between (-0.001) = false /\
  check_float_between nan = false.
Proof. repeat split; vm_compute; reflexivity. Qed.

(** ** The feature vector *)

(** C2: the assembled array is one row holding the nine field values in the
    trained order pH, Hardness, Solids, Chloramines, Sulfate, Conductivity,
    OrganicCarbon, Trihalomethanes, Turbidity; it is a function of these nine
    values alone, so inputs that agree on them give the same array. *)
Theorem input_data_trained_order (i j : Inputs) :
  input_data i = [map (field_value i) trained_order] /\
  List.length (map (field_value i) trained_order) = 9%nat /\
  ((forall f, field_value i f = field_value j f) -> input_data i = input_data j).
Proof.
  split; [reflexivity | split; [reflexivity |]].
  intro H.
  change (input_data i) with [map (field_value i) trained_order].
  change (input_data j) with [map (field_value j) trained_order].
  f_equal. apply map_ext. exact H.
Qed.

(** ** The result presenter *)

(** Case analysis on the conditions a stuck run waits for. *)
Ltac branch :=
  repeat (match goal with
          | |- context [if ?c then _ else _] => destruct c
          end; cbn).

(** C1: the presenter shows the potable narrative with confidence [p_potable]
    for label 1 and the not-potable narrative with confidence
    [p_not_potable] for label 0; whatever the probabilities are, it shows one
    narrative, chosen by the label alone, and one confidence, the probability
    of the class of that narrative. *)
Theorem presenter_follows_label (l : Z) (rest : labels)
    (p_potable p_not_potable : float) (w : World) :
  let result (label : Z) :=
    mkPrediction (label :: rest) p_potable p_not_potable in
  let verdict (label : Z) :=
    verdicts (shown (display_results (result label))) in
  verdict 1%Z = ([potable], [p_potable]) /\
  verdict 0%Z = ([not_potable], [p_not_potable]) /\
  verdict l = ([if (l =? 1)%Z then potable else not_potable],
               [if (l =? 1)%Z then p_potable else p_not_potable]) /\
  screen (world_of (display_results (result l) w)) =
    screen w ++ shown (display_results (result l)).
Proof.
  cbv zeta. split; [| split; [| split]];
    [| | | apply screen_anywhere, oblivious_display_results];
    unfold verdicts, shown, display_results, st_progress_float.
  - cbn; branch; reflexivity.
  - cbn; branch; reflexivity.
  - cbn -[Z.eqb]; branch; reflexivity.
Qed.

(** C8: in the confidence breakdown the expression taken when [p > 0.5] and
    the one taken otherwise are the same, [p - 0.5] formatted as a
    percentage, so the delta does not depend on the test. *)
Theorem metric_delta_arms_agree (p : float) :
  delta_above p = delta_otherwise p /\
  metric_delta p = [Pct1 (p - 0.5)].
Proof.
  split; [reflexivity |].
  unfold metric_delta. destruct (gtb p 0.5); reflexivity.
Qed.

(** ** Running the script step by step *)

Lemma sidebar_runs (s : Session) :
  sidebar s fresh = Ok (collected s) (mkWorld sidebar_page [] []).
Proof. reflexivity. Qed.

Lemma bind_Ok {A B} (m : M A) (k : A -> M B) w a w' :
  m w = Ok a w' -> bind m k w = k a w'.
Proof. intro H. unfold bind. now rewrite H. Qed.

Lemma bind_Raise {A B} (m : M A) (k : A -> M B) w e w' :
  m w = Raise e w' -> bind m k w = Raise e w'.
Proof. intro H. unfold bind. now rewrite H. Qed.

Lemma oblivious_respond animation model scaler s :
  oblivious animation -> oblivious (respond animation model scaler s).
Proof.
  intro Ha. unfold respond; oblivious.
  now apply oblivious_prediction_section.
Qed.

Lemma script_pickled animation s model scaler :
  oblivious animation ->
  rf_model_pkl s = Pickled [model; scaler] ->
  script animation s fresh =
  graft (mkWorld front_page [] []) (respond animation model scaler s fresh).
Proof.
  intros Ha H. unfold script.
  rewrite (bind_Ok page_setup _ fresh (a:=tt)
             (w':=mkWorld [PageConfig "Water Potability Predictor 💧"; Style] [] []))
    by reflexivity.
  rewrite H.
  erewrite bind_Ok by (cbv; reflexivity). cbv beta iota.
  erewrite bind_Ok by (cbv; reflexivity).
  rewrite (bind_Ok (sidebar s) _ _ (a:=collected s)
             (w':=mkWorld front_page [] [])) by reflexivity.
  rewrite <- (oblivious_respond model scaler s Ha).
  reflexivity.
Qed.

(** The loading animation: the bar at 0, then a hundred naps of a hundredth
    of a second, the bar one step further after each. *)
Lemma loading_animation_runs :
  loading_animation fresh =
  Ok tt (mkWorld (map Progress (range 101)) (repeat 0.01 100) []).
Proof. vm_compute. reflexivity. Qed.

Lemma loading_animation_from (w : World) :
  loading_animation w = Ok tt (join w animation_world).
Proof.
  rewrite (oblivious_loading_animation w), loading_animation_runs.
  reflexivity.
Qed.

Lemma make_prediction_runs animation wa model xs :
  oblivious animation ->
  animation fresh = Ok tt wa ->
  make_prediction animation model xs fresh =
  finish (predicted model xs)
    (mkWorld
       (Spinner "" :: screen wa ++
        match predicted model xs with
        | inl _ => [ProgressEmpty; SpinnerDone]
        | inr _ => [SpinnerDone]
        end)
       (slept wa)
       (calls wa ++ asked model xs)).
Proof.
  intros Hobl Ha.
  unfold make_prediction, with_spinner, predicted, asked.
  erewrite bind_Ok by reflexivity.
  rewrite (bind_Ok animation _ _ (a:=tt)
             (w':=join (mkWorld [Spinner ""] [] []) wa))
    by (rewrite Hobl, Ha; reflexivity).
  unfold model_predict, model_predict_proba. cbn.
  destruct (predict model xs) as [pred|e] eqn:Hp; cbn.
  - destruct (predict_proba model xs) as [proba|e] eqn:Hq; cbn.
    + destruct proba as [|[|p0 [|p1 rest]] more]; cbn;
        rewrite <- ?app_assoc; reflexivity.
    + rewrite <- ?app_assoc; reflexivity.
  - reflexivity.
Qed.

(** ** The artifact loader *)

(** C3, as the script has it: when [rf_model.pkl] is absent the run shows
    the "Model file not found" message and halts by [st.stop()], with only the
    page configuration and the style sheet sent before and no input field or
    button; when the file exists but cannot be opened, or is not a pickle, the
    run ends before any input field too, but by the exception, which no handler
    catches, and the message is not shown. *)
Theorem absent_artifact_halts (entries : field -> list float) (button : bool)
    (w : World) :
  app (mkSession Missing entries button) w =
    Stop (join w (mkWorld (setup_page ++ [Error model_not_found]) [] [])) /\
  app (mkSession Denied entries button) w =
    Raise PermissionError (join w (mkWorld setup_page [] [])) /\
  app (mkSession Garbage entries button) w =
    Raise UnpicklingError (join w (mkWorld setup_page [] [])) /\
  filter is_widget (setup_page ++ [Error model_not_found]) = [].
Proof.
  split; [| split; [| split]];
    [rewrite (oblivious_app _ w); vm_compute; reflexivity ..
    | reflexivity].
Qed.

(** C3 fails for an unreadable file: the run ends by an uncaught
    [PermissionError] and the user-facing message is not on the page. *)
Lemma unreadable_artifact_not_reported :
  let s := mkSession Denied Fixtures.untouched false in
  answer_of (app s fresh) = Raised PermissionError /\
  ~ In (Error model_not_found) (shown (app s)).
Proof.
  split; [reflexivity |].
  change (shown (app (mkSession Denied Fixtures.untouched false)))
    with setup_page.
  intros [H | [H | []]]; discriminate H.
Qed.

(** ** The input collector *)

Lemma held_within lo hi v l :
  (lo <=? v) && (v <=? hi) = true ->
  (lo <=? held lo hi v l) && (held lo hi v l <=? hi) = true.
Proof.
  unfold held. revert v.
  induction l as [|entry l IH]; intros v Hv; simpl; [exact Hv |].
  apply IH. unfold commit.
  destruct ((lo <=? entry) && (entry <=? hi)) eqn:He; assumption.
Qed.

Lemma held_last lo hi v l entry :
  held lo hi v (l ++ [entry]) = commit lo hi (held lo hi v l) entry.
Proof. unfold held. now rewrite fold_left_app. Qed.

Lemma default_within (f : field) :
  within f (row_default (interface_table f)) = true.
Proof. destruct f; reflexivity. Qed.

Lemma bounds_within (f : field) :
  within f (row_min (interface_table f)) = true /\
  within f (row_max (interface_table f)) = true.
Proof. destruct f; split; reflexivity. Qed.

Lemma field_value_collected (s : Session) (f : field) :
  field_value (collected s) f = table_value s f.
Proof. destruct f; reflexivity. Qed.

(** C4: the nine fields are declared with the minimum, maximum, default and
    step of the interface table, in the table's order; the sidebar always
    returns, and the value it returns for a field lies within the field's
    bounds, is the default when nothing was entered, is the last entry when
    that entry is the minimum or the maximum (or anything between), and is
    the value held before when the last entry is out of range. *)
Theorem collector_enforces_table (s : Session) (w : World) (f : field) :
  pick declared sidebar_page = map interface_table trained_order /\
  sidebar s w = Ok (collected s) (join w (mkWorld sidebar_page [] [])) /\
  within f (field_value (collected s) f) = true /\
  (typed s f = [] ->
   field_value (collected s) f = row_default (interface_table f)) /\
  (forall before entry,
     typed s f = before ++ [entry] ->
     entry = row_min (interface_table f) \/
     entry = row_max (interface_table f) \/
     within f entry = true ->
     field_value (collected s) f = entry) /\
  (forall before entry,
     typed s f = before ++ [entry] ->
     within f entry = false ->
     field_value (collected s) f =
       held (row_min (interface_table f)) (row_max (interface_table f))
            (row_default (interface_table f)) before).
Proof.
  split; [reflexivity |].
  split; [now rewrite (oblivious_sidebar s w), sidebar_runs |].
  rewrite field_value_collected. unfold table_value.
  split; [apply held_within, default_within |].
  split; [intros ->; reflexivity |].
  split; intros before entry -> H; rewrite held_last; unfold commit.
  - assert (Hin : within f entry = true).
    { destruct H as [-> | [-> | H]]; [apply bounds_within .. | exact H]. }
    unfold within in Hin. now rewrite Hin.
  - unfold within in H. now rewrite H.
Qed.

Lemma collector_enforces_table_witness :
  let s := mkSession Missing
             (fun f => match f with PH => [20.0; 14.0] | _ => [] end) false in
  field_value (collected s) PH = 14.0 /\
  field_value (collected s) Solids = 20000.0.
Proof.
  split.
  - apply (proj1 (proj2 (proj2 (proj2 (proj2
             (collector_enforces_table _ fresh PH))))) [20.0] 14.0).
    + reflexivity.
    + right; left; reflexivity.
  - apply (proj1 (proj2 (proj2 (proj2
             (collector_enforces_table _ fresh Solids))))).
    reflexivity.
Defined.

(** ** The inference step *)

Lemma scaler_transform_returns scaler x xs w :
  transform scaler x = inl xs ->
  scaler_transform scaler x w = Ok xs (join w (mkWorld [] [] [CallTransform x])).
Proof.
  intro H. rewrite (oblivious_scaler_transform scaler x w).
  unfold scaler_transform. cbn. now rewrite H.
Qed.

Lemma make_prediction_returns model xs pred p0 p1 rest more w :
  predict model xs = inl pred ->
  predict_proba model xs = inl ((p0 :: p1 :: rest) :: more) ->
  answer_of (make_prediction loading_animation model xs w) =
    Returned (mkPrediction pred p1 p0).
Proof.
  intros Hp Hq.
  rewrite answer_anywhere by auto with oblivious.
  rewrite (make_prediction_runs model xs oblivious_loading_animation
             loading_animation_runs).
  unfold predicted. now rewrite Hp, Hq.
Qed.




(** ** Determinism *)

Lemma bind_cong {A B} (m1 m2 : M A) (k1 k2 : A -> M B) (w : World) :
  m1 w = m2 w ->
  (forall a w', k1 a w' = k2 a w') ->
  bind m1 k1 w = bind m2 k2 w.
Proof.
  intros Hm Hk. unfold bind. rewrite Hm.
  destruct (m2 w); trivial.
Qed.

Lemma input_data_injective (i j : Inputs) :
  input_data i = input_data j -> i = j.
Proof.
  destruct i, j. unfold input_data; simpl.
  intro H. injection H as -> -> -> -> -> -> -> -> ->. reflexivity.
Qed.

(** The script looks at a session through the file, the values the fields
    hold and the button only. *)
Lemma script_congruence (animation : M unit) (s1 s2 : Session) (w : World) :
  rf_model_pkl s1 = rf_model_pkl s2 ->
  collected s1 = collected s2 ->
  pressed s1 = pressed s2 ->
  script animation s1 w = script animation s2 w.
Proof.
  intros Hf Hi Hb. unfold script.
  apply bind_cong; [reflexivity | intros _ w1].
  rewrite Hf.
  apply bind_cong; [reflexivity | intros [model scaler] w2].
  apply bind_cong; [reflexivity | intros _ w3].
  apply bind_cong.
  { rewrite (oblivious_sidebar s1 w3), (oblivious_sidebar s2 w3).
    now rewrite !sidebar_runs, Hi. }
  intros inputs w4.
  apply bind_cong; [reflexivity | intros input_scaled w5].
  apply bind_cong; [| reflexivity].
  unfold prediction_section. now rewrite Hb.
Qed.

(** C6: the inference step is deterministic.  The scaler call and the
    prediction made on its result return the same thing in whatever world
    they run; and two runs of the script that read the same file and hold
    the same nine field values, the button pressed in both or in neither, end
    the same way, send the same elements and make the same calls, whatever
    was on the page before and however the field values were entered. *)
Theorem inference_deterministic (model scaler : Estimator) (x xs : matrix)
    (s1 s2 : Session) (w1 w2 : World) :
  answer_of (scaler_transform scaler x w1) =
    answer_of (scaler_transform scaler x w2) /\
  answer_of (make_prediction loading_animation model xs w1) =
    answer_of (make_prediction loading_animation model xs w2) /\
  (rf_model_pkl s1 = rf_model_pkl s2 ->
   input_data (collected s1) = input_data (collected s2) ->
   pressed s1 = pressed s2 ->
   answer_of (app s1 w1) = answer_of (app s2 w2) /\
   shown (app s1) = shown (app s2) /\
   called (app s1) = called (app s2)).
Proof.
  split; [| split].
  - rewrite (@answer_anywhere _ (scaler_transform scaler x) w1),
      (@answer_anywhere _ (scaler_transform scaler x) w2) by auto with oblivious.
    reflexivity.
  - rewrite (@answer_anywhere _ (make_prediction loading_animation model xs) w1),
      (@answer_anywhere _ (make_prediction loading_animation model xs) w2)
      by auto with oblivious.
    reflexivity.
  - intros Hf Hi Hb. apply input_data_injective in Hi.
    rewrite (@answer_anywhere _ (app s1) w1), (@answer_anywhere _ (app s2) w2)
      by apply oblivious_app.
    unfold shown, called, app.
    now rewrite (@script_congruence loading_animation s1 s2 fresh Hf Hi Hb).
Qed.

Lemma inference_deterministic_witness :
  let artifact := Pickled [Fixtures.model9; Fixtures.scaler9] in
  let s1 := mkSession artifact Fixtures.untouched true in
  let s2 := mkSession artifact
              (fun f => match f with PH => [20.0] | _ => [] end) true in
  answer_of (app s1 fresh) = answer_of (app s2 animation_world) /\
  shown (app s1) = shown (app s2) /\
  called (app s1) = called (app s2).
Proof.
  intros artifact s1 s2.
  apply (proj2 (proj2 (inference_deterministic Fixtures.model9 Fixtures.scaler9
                         [] [] s1 s2 fresh animation_world)));
    reflexivity.
Defined.

(** ** The loading animation is presentation only *)

Lemma lasting_app (p q : list element) :
  lasting (p ++ q) = lasting p ++ lasting q.
Proof. apply filter_app. Qed.

Lemma alike_join (w1 w2 w : World) :
  alike w1 w2 -> alike (join w1 w) (join w2 w).
Proof.
  intros [Hs Hc]. split; simpl.
  - now rewrite !lasting_app, Hs.
  - now rewrite Hc.
Qed.

Lemma oblivious_simulates {A} (m : M A) : oblivious m -> simulates m m.
Proof.
  intros Hm w1 w2 Hw. rewrite (Hm w1), (Hm w2). split.
  - now rewrite !answer_of_graft.
  - rewrite !world_of_graft. now apply alike_join.
Qed.

Lemma simulates_bind {A B} (m1 m2 : M A) (k1 k2 : A -> M B) :
  simulates m1 m2 ->
  (forall a, simulates (k1 a) (k2 a)) ->
  simulates (bind m1 k1) (bind m2 k2).
Proof.
  intros Hm Hk w1 w2 Hw. unfold bind.
  destruct (Hm w1 w2 Hw) as [Ha Hw'].
  destruct (m1 w1) as [a1 u1 | e1 u1 | u1], (m2 w2) as [a2 u2 | e2 u2 | u2];
    simpl in Ha, Hw'; try discriminate.
  - injection Ha as <-. now apply Hk.
  - injection Ha as <-. now split.
  - now split.
Qed.

Lemma simulates_with_spinner {A} (body : string) (b1 b2 : M A) :
  simulates b1 b2 -> simulates (with_spinner body b1) (with_spinner body b2).
Proof.
  intros Hb w1 w2 Hw. unfold with_spinner.
  assert (Hs : simulates (emit (Spinner body) ;; b1) (emit (Spinner body) ;; b2)).
  { apply simulates_bind; [apply oblivious_simulates, oblivious_emit | now intros _]. }
  destruct (Hs w1 w2 Hw) as [Ha Hw'].
  destruct ((emit (Spinner body) ;; b1) w1) as [a1 u1 | e1 u1 | u1],
           ((emit (Spinner body) ;; b2) w2) as [a2 u2 | e2 u2 | u2];
    cbn [answer_of world_of] in Ha, Hw'; try discriminate.
  - injection Ha as <-.
    apply (@oblivious_simulates _ (emit SpinnerDone ;; ret a1)); [oblivious | exact Hw'].
  - injection Ha as <-.
    apply (@oblivious_simulates _ (emit SpinnerDone ;; @raise A e1));
      [oblivious | exact Hw'].
  - apply (@oblivious_simulates _ (emit SpinnerDone ;; @st_stop A));
      [oblivious | exact Hw'].
Qed.

(** The animation always returns, makes no call, and sends nothing but
    progress-bar elements: it simulates doing nothing. *)
Lemma loading_animation_simulates_nothing :
  simulates loading_animation (ret tt).
Proof.
  intros w1 w2 [Hs Hc]. rewrite loading_animation_from. split; [reflexivity |].
  split; simpl.
  - rewrite lasting_app, Hs.
    change (lasting (map Progress (range 101))) with (@nil element).
    apply app_nil_r.
  - now rewrite app_nil_r.
Qed.

Lemma make_prediction_simulates (a1 a2 : M unit) model xs :
  simulates a1 a2 ->
  simulates (make_prediction a1 model xs) (make_prediction a2 model xs).
Proof.
  intro Ha. unfold make_prediction.
  apply simulates_with_spinner, simulates_bind; [exact Ha | intros _].
  apply oblivious_simulates; oblivious.
Qed.

Lemma script_simulates (a1 a2 : M unit) (s : Session) :
  simulates a1 a2 -> simulates (script a1 s) (script a2 s).
Proof.
  intro Ha. unfold script.
  apply simulates_bind; [apply oblivious_simulates; oblivious | intros _].
  apply simulates_bind; [apply oblivious_simulates; oblivious |].
  intros [model scaler].
  apply simulates_bind; [apply oblivious_simulates; oblivious | intros _].
  apply simulates_bind; [apply oblivious_simulates; oblivious | intros inputs].
  apply simulates_bind; [apply oblivious_simulates; oblivious | intros xs].
  apply simulates_bind; [| intros _; apply oblivious_simulates; oblivious].
  unfold prediction_section.
  apply simulates_bind; [apply oblivious_simulates; oblivious | intros _].
  apply simulates_bind; [apply oblivious_simulates; oblivious | intros _].
  apply simulates_bind; [apply oblivious_simulates; oblivious | intros b].
  destruct b; [| apply oblivious_simulates; oblivious].
  apply simulates_bind; [now apply make_prediction_simulates | intros r].
  apply oblivious_simulates; oblivious.
Qed.

(** C9: the progress-bar delay is presentation only.  It always returns,
    adds to the world nothing but progress-bar elements and time slept, and
    makes no call; the prediction returned with it is the one returned
    without it; and the whole run with it ends as the run without it does,
    with the same calls and the same page apart from the progress bar. *)
Theorem animation_is_presentational (model : Estimator) (xs : matrix)
    (s : Session) (w : World) :
  loading_animation w = Ok tt (join w animation_world) /\
  lasting (screen animation_world) = [] /\
  calls animation_world = [] /\
  answer_of (make_prediction loading_animation model xs w) =
    answer_of (make_prediction (ret tt) model xs w) /\
  answer_of (app s w) = answer_of (script (ret tt) s w) /\
  calls (world_of (app s w)) = calls (world_of (script (ret tt) s w)) /\
  lasting (screen (world_of (app s w))) =
    lasting (screen (world_of (script (ret tt) s w))).
Proof.
  assert (Hw : alike w w) by (split; reflexivity).
  split; [apply loading_animation_from |].
  split; [reflexivity |]. split; [reflexivity |].
  split.
  - apply (make_prediction_simulates model xs
             loading_animation_simulates_nothing Hw).
  - destruct (script_simulates s loading_animation_simulates_nothing Hw)
      as [Ha [Hs Hc]].
    auto.
Qed.

(** ** A request, from the scaler call to the footer *)

Lemma bind_assoc {A B C} (m : M A) (k : A -> M B) (k' : B -> M C) (w : World) :
  bind (bind m k) k' w = bind m (fun a => bind (k a) k') w.
Proof. unfold bind. destruct (m w); reflexivity. Qed.

Lemma respond_runs (model scaler : Estimator) (s : Session) :
  let x := input_data (collected s) in
  respond loading_animation model scaler s fresh =
  match transform scaler x with
  | inr e => Raise e (mkWorld [] [] [CallTransform x])
  | inl xs =>
      if pressed s
      then
        match predicted model xs with
        | inr e =>
            Raise e (mkWorld (button_page ++ waiting_page) naps
                       (CallTransform x :: asked model xs))
        | inl r =>
            graft (mkWorld (button_page ++ waited_page) naps
                     (CallTransform x :: asked model xs))
              ((display_results r ;; closing) fresh)
        end
      else Ok tt (mkWorld (button_page ++ closing_page) [] [CallTransform x])
  end.
Proof.
  intro x. unfold respond. fold x. clearbody x.
  destruct (transform scaler x) as [xs | e] eqn:Ht.
  - rewrite (bind_Ok _ _ _ (scaler_transform_returns _ _ fresh Ht)).
    rewrite join_fresh_l. unfold prediction_section.
    rewrite bind_assoc.
    erewrite bind_Ok by reflexivity.
    rewrite bind_assoc.
    erewrite bind_Ok by reflexivity.
    rewrite bind_assoc.
    erewrite bind_Ok by reflexivity.
    destruct (pressed s); cbv iota.
    + rewrite bind_assoc. unfold bind at 1.
      rewrite (oblivious_make_prediction model xs oblivious_loading_animation).
      rewrite (make_prediction_runs model xs oblivious_loading_animation
                 loading_animation_runs).
      destruct (predicted model xs) as [r | e] eqn:Hr.
      * cbn [finish graft].
        assert (Ho : oblivious (display_results r ;; closing)) by oblivious.
        rewrite (Ho _). reflexivity.
      * reflexivity.
    + reflexivity.
  - erewrite bind_Raise; [reflexivity |].
    unfold scaler_transform. cbn. now rewrite Ht.
Qed.

Lemma app_pickled (s : Session) (model scaler : Estimator) :
  rf_model_pkl s = Pickled [model; scaler] ->
  app s fresh =
  graft (mkWorld front_page [] []) (respond loading_animation model scaler s fresh).
Proof. apply script_pickled, oblivious_loading_animation. Qed.

Lemma pick_app {A B} (f : A -> option B) (l l' : list A) :
  pick f (l ++ l') = pick f l ++ pick f l'.
Proof.
  induction l as [|a l IH]; simpl; [reflexivity |].
  destruct (f a); simpl; now rewrite IH.
Qed.

Lemma predicted_inv (model : Estimator) (xs : matrix) (r : Prediction) :
  predicted model xs = inl r ->
  exists rest more,
    predict model xs = inl (pred r) /\
    predict_proba model xs =
      inl ((prob_not_potable r :: prob_potable r :: rest) :: more).
Proof.
  unfold predicted.
  destruct (predict model xs) as [l | e]; [| discriminate].
  destruct (predict_proba model xs) as [[|[|p0 [|p1 rest]] more] | e];
    try discriminate.
  intros [= <-]. now exists rest, more.
Qed.

(** What the presenter and the footer show of a verdict. *)
Lemma verdict_shown (r : Prediction) :
  pick narrative_of (shown (display_results r ;; closing)) =
    match pred r with
    | [] => []
    | l :: _ => [if (l =? 1)%Z then potable else not_potable]
    end /\
  pick confidence_of (shown (display_results r ;; closing)) =
    match pred r with
    | [] => []
    | l :: _ => [if (l =? 1)%Z then prob_potable r else prob_not_potable r]
    end /\
  called (display_results r ;; closing) = [].
Proof.
  destruct r as [[|l rest] p1 p0]; unfold shown, called;
    cbn [pred prob_potable prob_not_potable].
  - split; [| split]; vm_compute; reflexivity.
  - split; [| split]; cbv -[Z.eqb andb metric_delta check_float_between];
      repeat (match goal with
              | |- context [if ?c then _ else _] => destruct c
              end; cbv -[Z.eqb andb metric_delta check_float_between]);
      reflexivity.
Qed.

Lemma verdicts_app (p q : list element) :
  verdicts (p ++ q) = (fst (verdicts p) ++ fst (verdicts q),
                       snd (verdicts p) ++ snd (verdicts q)).
Proof. unfold verdicts; simpl. now rewrite !pick_app. Qed.

(** What a run that found the two objects in the pickle shows of a verdict,
    which calls it makes and how it ends. *)
Lemma app_observed (s : Session) (model scaler : Estimator) :
  rf_model_pkl s = Pickled [model; scaler] ->
  let x := input_data (collected s) in
  (verdicts (shown (app s)), called (app s)) =
  match transform scaler x with
  | inr e => (([], []), [CallTransform x])
  | inl xs =>
      if pressed s
      then
        match predicted model xs with
        | inr e => (([], []), CallTransform x :: asked model xs)
        | inl r =>
            (verdicts (shown (display_results r ;; closing)),
             CallTransform x :: asked model xs)
        end
      else (([], []), [CallTransform x])
  end.
Proof.
  intros Hf x. unfold shown at 1, called.
  rewrite (app_pickled s Hf), world_of_graft, respond_runs. fold x.
  cbn [join screen calls]. rewrite verdicts_app.
  change (verdicts front_page) with (@nil narrative, @nil float).
  cbn [fst snd app].
  destruct (transform scaler x) as [xs | e]; [| reflexivity].
  destruct (pressed s); [| reflexivity].
  destruct (predicted model xs) as [r | e]; [| reflexivity].
  rewrite world_of_graft. cbn [join screen calls]. rewrite verdicts_app.
  change (verdicts (button_page ++ waited_page))
    with (@nil narrative, @nil float).
  cbn [fst snd app].
  destruct (verdict_shown r) as (_ & _ & Hc). unfold called in Hc.
  rewrite Hc, app_nil_r. unfold shown, verdicts. reflexivity.
Qed.

Lemma app_answer (s : Session) (model scaler : Estimator) (w : World) :
  rf_model_pkl s = Pickled [model; scaler] ->
  answer_of (app s w) =
  match transform scaler (input_data (collected s)) with
  | inr e => Raised e
  | inl xs =>
      if pressed s
      then
        match predicted model xs with
        | inr e => Raised e
        | inl r => answer_of ((display_results r ;; closing) fresh)
        end
      else Returned tt
  end.
Proof.
  intros Hf. rewrite (@answer_anywhere _ (app s) w) by apply oblivious_app.
  rewrite (app_pickled s Hf), answer_of_graft, respond_runs.
  destruct (transform scaler _) as [xs | e]; [| reflexivity].
  destruct (pressed s); [| reflexivity].
  destruct (predicted model xs) as [r | e]; [| reflexivity].
  apply answer_of_graft.
Qed.

(** What the presenter and the footer show of the breakdown. *)
Lemma breakdown_tail (r : Prediction) :
  pick breakdown_of (shown (display_results r ;; closing)) =
    match pred r with
    | [] => []
    | _ :: _ =>
        [("Safe to Drink", prob_potable r, prob_potable r - 0.5);
         ("Unsafe to Drink", prob_not_potable r, prob_not_potable r - 0.5)]
    end.
Proof.
  destruct r as [[|l rest] p1 p0]; unfold shown;
    cbn [pred prob_potable prob_not_potable]; [vm_compute; reflexivity |].
  cbv -[Z.eqb andb gtb check_float_between sub];
    repeat (match goal with
            | |- context [if ?c then _ else _] => destruct c
            end; cbv -[Z.eqb andb gtb check_float_between sub]);
    reflexivity.
Qed.

(** A request the three calls answer: the calls it makes and what it shows
    of the answers. *)
Lemma answered_request (s : Session) (model scaler : Estimator) (xs : matrix)
    (l : Z) (rest : labels) (p0 p1 : float) (tail : vector) (more : matrix) :
  rf_model_pkl s = Pickled [model; scaler] ->
  pressed s = true ->
  transform scaler (input_data (collected s)) = inl xs ->
  predict model xs = inl (l :: rest) ->
  predict_proba model xs = inl ((p0 :: p1 :: tail) :: more) ->
  called (app s) =
    [CallTransform (input_data (collected s)); CallPredict xs;
     CallPredictProba xs] /\
  verdicts (shown (app s)) =
    ([if (l =? 1)%Z then potable else not_potable],
     [if (l =? 1)%Z then p1 else p0]) /\
  pick breakdown_of (shown (app s)) =
    [("Safe to Drink", p1, p1 - 0.5); ("Unsafe to Drink", p0, p0 - 0.5)].
Proof.
  intros Hf Hb Ht Hp Hq.
  assert (Hr : predicted model xs = inl (mkPrediction (l :: rest) p1 p0))
    by (unfold predicted; now rewrite Hp, Hq).
  unfold called, shown at 1 2.
  rewrite (app_pickled s Hf), world_of_graft, respond_runs, Ht, Hb, Hr.
  rewrite world_of_graft. cbn [join screen calls].
  fold (shown (display_results (mkPrediction (l :: rest) p1 p0) ;; closing)).
  fold (called (display_results (mkPrediction (l :: rest) p1 p0) ;; closing)).
  destruct (verdict_shown (mkPrediction (l :: rest) p1 p0)) as (Hn & Hc & Hcalls).
  cbn [pred prob_potable prob_not_potable] in Hn, Hc.
  assert (Hvt : verdicts
                  (shown (display_results (mkPrediction (l :: rest) p1 p0) ;;
                          closing)) =
                ([if (l =? 1)%Z then potable else not_potable],
                 [if (l =? 1)%Z then p1 else p0]))
    by (unfold verdicts; now rewrite Hn, Hc).
  split; [| split].
  - rewrite Hcalls. unfold asked. now rewrite Hp.
  - rewrite !verdicts_app.
    change (verdicts front_page) with (@nil narrative, @nil float).
    change (verdicts (button_page ++ waited_page))
      with (@nil narrative, @nil float).
    rewrite Hvt. reflexivity.
  - rewrite !pick_app.
    change (pick breakdown_of front_page) with (@nil (string * float * float)).
    change (pick breakdown_of (button_page ++ waited_page))
      with (@nil (string * float * float)).
    rewrite breakdown_tail. reflexivity.
Qed.

(** ** One sample per request *)

(** C10: in a run the button triggered, the scaler is called exactly once,
    on the assembled inputs; every call on the model has the result of that
    call as its argument; when a verdict is on the page, the label behind
    its narrative and the probability shown as its confidence are what
    [predict] and [predict_proba] returned for that one scaled vector; and
    when the three calls answer, the run makes exactly these three calls and
    shows the verdict of the label [predict] returned for the scaled vector
    and, in the breakdown, the two probabilities [predict_proba] returned
    for it. *)
Theorem one_sample_per_request (s : Session) (model scaler : Estimator)
    (w : World) :
  rf_model_pkl s = Pickled [model; scaler] ->
  pressed s = true ->
  let x := input_data (collected s) in
  calls (world_of (app s w)) = calls w ++ called (app s) /\
  filter is_transform (called (app s)) = [CallTransform x] /\
  (forall c, In c (called (app s)) -> is_transform c = false ->
             transform scaler x = inl (argument c)) /\
  (verdicts (shown (app s)) <> ([], []) ->
   exists xs l rest p0 p1 tail more,
     transform scaler x = inl xs /\
     predict model xs = inl (l :: rest) /\
     predict_proba model xs = inl ((p0 :: p1 :: tail) :: more) /\
     called (app s) = [CallTransform x; CallPredict xs; CallPredictProba xs] /\
     verdicts (shown (app s)) =
       ([if (l =? 1)%Z then potable else not_potable],
        [if (l =? 1)%Z then p1 else p0])) /\
  (forall xs l rest p0 p1 tail more,
     transform scaler x = inl xs ->
     predict model xs = inl (l :: rest) ->
     predict_proba model xs = inl ((p0 :: p1 :: tail) :: more) ->
     called (app s) = [CallTransform x; CallPredict xs; CallPredictProba xs] /\
     verdicts (shown (app s)) =
       ([if (l =? 1)%Z then potable else not_potable],
        [if (l =? 1)%Z then p1 else p0]) /\
     pick breakdown_of (shown (app s)) =
       [("Safe to Drink", p1, p1 - 0.5); ("Unsafe to Drink", p0, p0 - 0.5)]).
Proof.
  intros Hf Hb x.
  assert (Hanswered :
            forall xs l rest p0 p1 tail more,
              transform scaler x = inl xs ->
              predict model xs = inl (l :: rest) ->
              predict_proba model xs = inl ((p0 :: p1 :: tail) :: more) ->
              called (app s) =
                [CallTransform x; CallPredict xs; CallPredictProba xs] /\
              verdicts (shown (app s)) =
                ([if (l =? 1)%Z then potable else not_potable],
                 [if (l =? 1)%Z then p1 else p0]) /\
              pick breakdown_of (shown (app s)) =
                [("Safe to Drink", p1, p1 - 0.5);
                 ("Unsafe to Drink", p0, p0 - 0.5)])
    by (intros; now apply answered_request with (model := model)
                  (scaler := scaler) (rest := rest) (tail := tail) (more := more)).
  split; [apply calls_anywhere, oblivious_app |].
  match goal with |- ?B /\ ?C /\ ?D /\ _ =>
    enough (B /\ C /\ D) as (HB & HC & HD)
      by (split; [exact HB | split; [exact HC | split;
            [exact HD | exact Hanswered]]])
  end.
  clear Hanswered.
  pose proof (app_observed s Hf) as Ho. cbv zeta in Ho. fold x in Ho.
  rewrite Hb in Ho.
  pose proof (f_equal fst Ho) as Hv. pose proof (f_equal snd Ho) as Hc.
  clear Ho. cbn [fst snd] in Hv, Hc.
  destruct (transform scaler x) as [xs | e] eqn:Ht.
  - assert (Hc' : called (app s) = CallTransform x :: asked model xs).
    { destruct (predicted model xs); exact Hc. }
    clear Hc. rewrite Hc'. unfold asked.
    split; [| split].
    + destruct (predict model xs); reflexivity.
    + intros c Hin Hnt.
      destruct (predict model xs); simpl in Hin;
        repeat (destruct Hin as [<- | Hin]; [try discriminate Hnt; reflexivity |]);
        destruct Hin.
    + intro Hne.
      destruct (predicted model xs) as [r | e] eqn:Hr;
        cbn [fst] in Hv; [| now elim Hne].
      destruct (predicted_inv _ _ Hr) as (tail & more & Hp & Hq).
      destruct (verdict_shown r) as (Hn & Hconf & _).
      rewrite Hv in Hne |- *. unfold verdicts in Hne |- *.
      rewrite Hn, Hconf in Hne |- *.
      destruct (pred r) as [|l rest] eqn:Hl; [now elim Hne |].
      exists xs, l, rest, (prob_not_potable r), (prob_potable r), tail, more.
      rewrite Hp. repeat split; trivial.
  - cbn [fst snd] in Hv, Hc. rewrite Hc.
    split; [reflexivity | split].
    + intros c [<- | []] Hnt. discriminate Hnt.
    + intro Hne. now elim Hne.
Qed.

Lemma one_sample_per_request_witness :
  let xs := argument (nth 1 (called (app Fixtures.session9)) (CallPredict [])) in
  filter is_transform (called (app Fixtures.session9)) =
    [CallTransform (input_data (collected Fixtures.session9))] /\
  (called (app Fixtures.session9) =
     [CallTransform (input_data (collected Fixtures.session9));
      CallPredict xs; CallPredictProba xs] /\
   verdicts (shown (app Fixtures.session9)) = ([potable], [0.75]) /\
   pick breakdown_of (shown (app Fixtures.session9)) =
     [("Safe to Drink", 0.75, 0.75 - 0.5);
      ("Unsafe to Drink", 0.25, 0.25 - 0.5)]).
Proof.
  intro xs. split.
  - apply (proj1 (proj2 (@one_sample_per_request Fixtures.session9
                           Fixtures.model9 Fixtures.scaler9 fresh
                           eq_refl eq_refl))).
  - apply (proj2 (proj2 (proj2 (proj2
             (@one_sample_per_request Fixtures.session9 Fixtures.model9
                Fixtures.scaler9 fresh eq_refl eq_refl))))
             xs 1%Z [] 0.25 0.75 [] []);
      vm_compute; reflexivity.
Defined.

(** ** Dimensionality *)

(** C7, as the script has it: the script always assembles one row of nine
    columns and calls [scaler.transform] on it, and checks nothing about
    what the unpickled objects expect; when
    [scaler.transform], [model.predict] or [model.predict_proba] raises, the
    exception reaches the top of the script, the run ends with it and no
    verdict is shown; and when the button was pressed and the three calls
    answer with a label and a row of two probabilities or more, the verdict
    of that label is shown, whatever number of columns the objects were
    fitted on. *)
Theorem estimator_errors_propagate (s : Session) (model scaler : Estimator)
    (e : exn) (w : World) :
  rf_model_pkl s = Pickled [model; scaler] ->
  let x := input_data (collected s) in
  shaped 1 9 x = true /\
  (exists others, called (app s) = CallTransform x :: others) /\
  (transform scaler x = inr e ->
   answer_of (app s w) = Raised e /\ verdicts (shown (app s)) = ([], [])) /\
  (forall xs,
     transform scaler x = inl xs ->
     pressed s = true ->
     predict model xs = inr e \/
     (exists l, predict model xs = inl l /\ predict_proba model xs = inr e) ->
     answer_of (app s w) = Raised e /\ verdicts (shown (app s)) = ([], [])) /\
  (forall xs l rest p0 p1 tail more,
     transform scaler x = inl xs ->
     pressed s = true ->
     predict model xs = inl (l :: rest) ->
     predict_proba model xs = inl ((p0 :: p1 :: tail) :: more) ->
     verdicts (shown (app s)) =
       ([if (l =? 1)%Z then potable else not_potable],
        [if (l =? 1)%Z then p1 else p0])).
Proof.
  intros Hf x.
  pose proof (app_observed s Hf) as Ho. cbv zeta in Ho. fold x in Ho.
  pose proof (f_equal fst Ho) as Hv. pose proof (f_equal snd Ho) as Hc.
  clear Ho. cbn [fst] in Hv. cbn [snd] in Hc.
  pose proof (app_answer s w Hf) as Ha. fold x in Ha.
  split; [reflexivity | split; [| split; [| split]]].
  - rewrite Hc.
    destruct (transform scaler x) as [xs | e']; [| now eexists].
    destruct (pressed s); [| now eexists].
    destruct (predicted model xs); now eexists.
  - intros Ht. rewrite Ht in Hv, Ha. now split.
  - intros xs Ht Hb Hm. rewrite Ht, Hb in Hv, Ha.
    assert (Hr : predicted model xs = inr e).
    { unfold predicted. destruct Hm as [-> | (l & -> & ->)]; reflexivity. }
    rewrite Hr in Hv, Ha. now split.
  - intros xs l rest p0 p1 tail more Ht Hb Hp Hq.
    apply (proj1 (proj2 (@answered_request s model scaler xs l rest p0 p1
                           tail more Hf Hb Ht Hp Hq))).
Qed.

Lemma estimator_errors_propagate_witness :
  (answer_of (app Mismatch.strict fresh) = Raised ValueError /\
   verdicts (shown (app Mismatch.strict)) = ([], [])) /\
  verdicts (shown (app Mismatch.loose)) = ([potable], [0.75]).
Proof.
  split.
  - apply (proj1 (proj2 (proj2 (@estimator_errors_propagate Mismatch.strict
                                  Fixtures.model9 Mismatch.strict_scaler
                                  ValueError fresh eq_refl)))).
    reflexivity.
  - apply (proj2 (proj2 (proj2 (proj2
             (@estimator_errors_propagate Mismatch.loose Mismatch.loose_model
                Mismatch.loose_scaler ValueError fresh eq_refl))))
             [[3.5; 75.0; 10000.0; 3.5; 165.0; 200.0; 5.0; 30.0; 1.5]]
             1%Z [] 0.25 0.75 [] []);
      reflexivity.
Defined.

(** C7 fails when the objects do not check their input: the scaler and the
    model were fitted on eight columns, the script hands them nine, nothing
    is raised and a verdict is shown. *)
Lemma shape_mismatch_goes_unnoticed :
  n_features_in Mismatch.loose_scaler = 8%nat /\
  n_features_in Mismatch.loose_model = 8%nat /\
  shaped 1 9 (input_data (collected Mismatch.loose)) = true /\
  answer_of (app Mismatch.loose fresh) = Returned tt /\
  verdicts (shown (app Mismatch.loose)) = ([potable], [0.75]).
Proof. repeat split; vm_compute; reflexivity. Qed.

Lemma input_data_trained_order_witness :
  input_data (mkInputs 7.0 150.0 20000.0 7.0 330.0 400.0 10.0 60.0 3.0) =
  input_data (collected Fixtures.session9).
Proof.
  apply (proj2 (proj2 (input_data_trained_order
                         (mkInputs 7.0 150.0 20000.0 7.0 330.0 400.0 10.0 60.0 3.0)
                         (collected Fixtures.session9)))).
  intros f; destruct f; reflexivity.
Defined.

(** * Further properties of the script *)

(** ** Programs that send only some elements *)

Lemma keeps_ret {A} p (a : A) : keeps p (ret a).
Proof. intros w H; exact H. Qed.

Lemma keeps_raise {A} p (e : exn) : keeps p (@raise A e).
Proof. intros w H; exact H. Qed.

Lemma keeps_st_stop {A} p : keeps p (@st_stop A).
Proof. intros w H; exact H. Qed.

Lemma keeps_lift {A} p (r : result A) : keeps p (lift r).
Proof. destruct r; [apply keeps_ret | apply keeps_raise]. Qed.

Lemma keeps_getitem {A} p (a : list A) (i : nat) : keeps p (getitem a i).
Proof.
  unfold getitem. destruct (nth_error a i); [apply keeps_ret | apply keeps_raise].
Qed.

Lemma keeps_unpack2 {A} p (l : list A) : keeps p (unpack2 l).
Proof.
  destruct l as [|a [|b [|c l]]]; simpl;
    first [apply keeps_ret | apply keeps_raise].
Qed.

Lemma keeps_unpack p (v : pickled) : keeps p (unpack v).
Proof. destruct v; simpl; [apply keeps_unpack2 | apply keeps_raise]. Qed.

Lemma keeps_time_sleep p (secs : float) : keeps p (time_sleep secs).
Proof. intros w H; exact H. Qed.

Lemma keeps_record_call p (c : call) : keeps p (record_call c).
Proof. intros w H; exact H. Qed.

Lemma keeps_emit p (e : element) : p e = true -> keeps p (emit e).
Proof.
  intros He w H. unfold emit; simpl.
  rewrite forallb_app, H; simpl. now rewrite He.
Qed.

Lemma keeps_bind {A B} p (m : M A) (k : A -> M B) :
  keeps p m -> (forall a, keeps p (k a)) -> keeps p (bind m k).
Proof.
  intros Hm Hk w H. unfold bind.
  specialize (Hm w H). destruct (m w) as [a w' | e w' | w']; simpl in Hm |- *;
    [now apply Hk | exact Hm | exact Hm].
Qed.

Lemma keeps_except {A} p (body handler : M A) :
  keeps p body -> keeps p handler ->
  keeps p (except_FileNotFoundError body handler).
Proof.
  intros Hb Hh w H. unfold except_FileNotFoundError.
  specialize (Hb w H). destruct (body w) as [a w' | e w' | w']; simpl in Hb |- *;
    trivial.
  destruct e; simpl; trivial. now apply Hh.
Qed.

Lemma keeps_for_each {A} p (l : list A) (body : A -> M unit) :
  (forall i, keeps p (body i)) -> keeps p (for_each l body).
Proof.
  intro Hbody. induction l as [|i rest IH]; simpl.
  - apply keeps_ret.
  - apply keeps_bind; [apply Hbody | intros _; exact IH].
Qed.

Lemma keeps_with_spinner {A} p (body : string) (block : M A) :
  p (Spinner body) = true -> p SpinnerDone = true ->
  keeps p block -> keeps p (with_spinner body block).
Proof.
  intros Hs Hd Hb w H. unfold with_spinner.
  assert (Hsb : keeps p (emit (Spinner body) ;; block))
    by (apply keeps_bind; [now apply keeps_emit | now intros _]).
  specialize (Hsb w H).
  destruct ((emit (Spinner body) ;; block) w) as [a w' | e w' | w'];
    simpl in Hsb |- *; rewrite forallb_app, Hsb; simpl; now rewrite Hd.
Qed.

(** Goes through a program, leaving the elements it sends to [reflexivity]. *)
Ltac keeps :=
  repeat lazymatch goal with
    | H : keeps ?p ?m |- keeps ?p ?m => exact H
    | |- keeps _ (bind _ _) => apply keeps_bind; [| intros ?]
    | |- keeps _ (except_FileNotFoundError _ _) => apply keeps_except
    | |- keeps _ (with_spinner _ _) =>
        apply keeps_with_spinner; [reflexivity | reflexivity |]
    | |- keeps _ (for_each _ _) => apply keeps_for_each; intros ?
    | |- keeps _ (emit _) => apply keeps_emit; reflexivity
    | |- keeps _ (ret _) => apply keeps_ret
    | |- keeps _ (raise _) => apply keeps_raise
    | |- keeps _ st_stop => apply keeps_st_stop
    | |- keeps _ (lift _) => apply keeps_lift
    | |- keeps _ (getitem _ _) => apply keeps_getitem
    | |- keeps _ (unpack2 _) => apply keeps_unpack2
    | |- keeps _ (unpack _) => apply keeps_unpack
    | |- keeps _ (time_sleep _) => apply keeps_time_sleep
    | |- keeps _ (record_call _) => apply keeps_record_call
    | |- keeps _ (if ?c then _ else _) => destruct c
    | |- keeps _ (match ?x with _ => _ end) => destruct x
    | |- keeps _ _ =>
        progress unfold number_input, st_button, st_progress, st_progress_float,
          scaler_transform, model_predict, model_predict_proba, page_setup,
          load_artifact, open_rb, pickle_load, app_header, sidebar,
          loading_animation, make_prediction, display_results,
          prediction_section, closing, respond
    end.

Lemma keeps_nothing_picked {A} (p : element -> bool) (f : element -> option A)
    (page : list element) :
  (forall e, p e = true -> f e = None) ->
  forallb p page = true -> pick f page = [].
Proof.
  intros Hpf. induction page as [|e page IH]; simpl; [reflexivity |].
  intro H. apply andb_true_iff in H. destruct H as [He Hp].
  now rewrite (Hpf e He), IH.
Qed.

Lemma keeps_shown {A} p (m : M A) : keeps p m -> forallb p (shown m) = true.
Proof. intro H. apply (H fresh). reflexivity. Qed.

Lemma keeps_out {A} (q : element -> bool) (m : M A) :
  keeps (fun e => negb (q e)) m -> existsb q (shown m) = false.
Proof.
  intro Hk. apply keeps_shown in Hk.
  destruct (existsb q (shown m)) eqn:He; [| reflexivity].
  apply existsb_exists in He. destruct He as (e & Hin & He).
  rewrite forallb_forall in Hk. specialize (Hk e Hin).
  now rewrite He in Hk.
Qed.

(** ** The loader, continued *)

(** X1: a pickle that does not unpack into exactly two objects ends the run
    at the unpacking, by an uncaught [ValueError] when it holds a sequence of
    another length and by an uncaught [TypeError] when it holds one object
    that is not a sequence; either way the run ends before the header and any
    input field, without the "not found" message and without any call. *)
Theorem unpacking_failures (s : Session) (w : World) :
  (forall objs,
     rf_model_pkl s = Pickled objs ->
     List.length objs <> 2%nat ->
     answer_of (app s w) = Raised ValueError /\
     shown (app s) = setup_page /\
     called (app s) = []) /\
  (forall o,
     rf_model_pkl s = Single o ->
     answer_of (app s w) = Raised TypeError /\
     shown (app s) = setup_page /\
     called (app s) = []).
Proof.
  rewrite (@answer_anywhere _ (app s) w) by apply oblivious_app.
  destruct s as [f entries button]. simpl.
  split.
  - intros objs -> Hn.
    destruct objs as [|a [|b [|c rest]]];
      [| | now elim Hn |]; (split; [| split]); vm_compute; reflexivity.
  - intros o ->. split; [| split]; vm_compute; reflexivity.
Qed.

Lemma unpacking_failures_witness :
  answer_of (app (mkSession (Pickled [Fixtures.model9]) Fixtures.untouched true)
               fresh) = Raised ValueError /\
  answer_of (app (mkSession (Single Fixtures.scaler9) Fixtures.untouched true)
               fresh) = Raised TypeError.
Proof.
  split.
  - apply (proj1 (unpacking_failures
                    (mkSession (Pickled [Fixtures.model9]) Fixtures.untouched true)
                    fresh) [Fixtures.model9] eq_refl).
    discriminate.
  - apply (proj2 (unpacking_failures
                    (mkSession (Single Fixtures.scaler9) Fixtures.untouched true)
                    fresh) Fixtures.scaler9 eq_refl).
Defined.

Lemma notice_iff_not_found (s : Session) :
  existsb is_notice (shown (app s)) = true <->
  rf_model_pkl s = Missing \/ rf_model_pkl s = Failing FileNotFoundError.
Proof.
  destruct s as [f entries button]. simpl.
  destruct f as [| | | [|a [|b [|c rest]]] | e | o];
    try (split; [vm_compute; discriminate | intros [H | H]; discriminate H]).
  - split; [now left | intros _; vm_compute; reflexivity].
  - split; [| intros [H | H]; discriminate H].
    unfold shown at 1.
    rewrite (@app_pickled (mkSession (Pickled [a; b]) entries button) a b eq_refl).
    rewrite world_of_graft. cbn [join screen]. rewrite existsb_app.
    change (existsb is_notice front_page) with false.
    fold (shown (respond loading_animation a b
                   (mkSession (Pickled [a; b]) entries button))).
    rewrite keeps_out by keeps. discriminate.
  - destruct e;
      try (split; [vm_compute; discriminate | intros [H | H]; discriminate H]).
    split; [now right | intros _; vm_compute; reflexivity].
Qed.

(** X2: the "Model file not found" message is on the page exactly when
    [FileNotFoundError] is raised inside the [try]: when [rf_model.pkl] is
    absent, or when unpickling the file raises it; the run then stops before
    the header.  In no other run does the page hold an [st.error] with plain
    text. *)
Theorem message_iff_not_found (s : Session) :
  (In (Error model_not_found) (shown (app s)) <->
   rf_model_pkl s = Missing \/ rf_model_pkl s = Failing FileNotFoundError) /\
  (rf_model_pkl s = Missing \/ rf_model_pkl s = Failing FileNotFoundError ->
   answer_of (app s fresh) = Stopped /\
   shown (app s) = setup_page ++ [Error model_not_found]) /\
  (rf_model_pkl s <> Missing ->
   rf_model_pkl s <> Failing FileNotFoundError ->
   existsb is_notice (shown (app s)) = false).
Proof.
  split; [split | split].
  - intro Hin. apply notice_iff_not_found, existsb_exists.
    now exists (Error model_not_found).
  - destruct s as [f entries button]; simpl.
    intros [-> | ->]; vm_compute; auto.
  - destruct s as [f entries button]; simpl.
    intros [-> | ->]; split; vm_compute; reflexivity.
  - intros Hm Hf.
    destruct (existsb is_notice (shown (app s))) eqn:He; [| reflexivity].
    apply notice_iff_not_found in He. tauto.
Qed.

Lemma message_iff_not_found_witness :
  In (Error model_not_found)
     (shown (app (mkSession (Failing FileNotFoundError) Fixtures.untouched true))) /\
  existsb is_notice (shown (app Fixtures.session9)) = false.
Proof.
  split.
  - apply (proj2 (proj1 (message_iff_not_found
              (mkSession (Failing FileNotFoundError) Fixtures.untouched true)))).
    now right.
  - apply (proj2 (proj2 (message_iff_not_found Fixtures.session9)));
      discriminate.
Defined.

(** ** The page of every run *)

Lemma shown_bind_Ok {A B} (m : M A) (k : A -> M B) (a : A) (w0 : World) :
  m fresh = Ok a w0 -> oblivious (k a) ->
  shown (bind m k) = screen w0 ++ shown (k a).
Proof.
  intros Hm Hk. unfold shown. rewrite (bind_Ok _ _ _ Hm), (Hk w0).
  now rewrite world_of_graft.
Qed.

(** X3: every run sends the page configuration first, and sends it once:
    whatever the file, the entries and the objects do, the page starts with
    [st.set_page_config] and the style sheet, and no later element is a page
    configuration. *)
Theorem page_config_first_and_once (s : Session) :
  exists rest,
    shown (app s) = setup_page ++ rest /\
    existsb is_page_config rest = false.
Proof.
  unfold app, script.
  eexists. split.
  - apply (@shown_bind_Ok _ _ page_setup _ tt (mkWorld setup_page [] []));
      [reflexivity |].
    oblivious.
    match goal with a : (Estimator * Estimator)%type |- _ =>
      destruct a as [model scaler] end; oblivious.
    apply oblivious_prediction_section, oblivious_loading_animation.
  - apply keeps_out. keeps.
Qed.

(** X4: once the two objects are unpickled, the page holds the nine number
    inputs, once each, in the trained order and with the table's bounds,
    whatever happens afterwards: a scaler or a model that raises takes
    nothing away from the form, and nothing after the sidebar adds an input
    field. *)
Theorem form_always_shown (s : Session) (model scaler : Estimator) :
  rf_model_pkl s = Pickled [model; scaler] ->
  pick declared (shown (app s)) = map interface_table trained_order /\
  List.length (filter is_number_input (shown (app s))) = 9%nat.
Proof.
  intro Hf. unfold shown at 1 2.
  rewrite (app_pickled s Hf), world_of_graft. cbn [join screen].
  fold (shown (respond loading_animation model scaler s)).
  assert (Hk : existsb is_number_input
                 (shown (respond loading_animation model scaler s)) = false)
    by (apply keeps_out; keeps).
  split.
  - rewrite pick_app.
    rewrite (@keeps_nothing_picked _ (fun e => negb (is_number_input e))
               declared (shown (respond loading_animation model scaler s))).
    + reflexivity.
    + intros [] He; try reflexivity; discriminate He.
    + apply keeps_shown. keeps.
  - rewrite filter_app, length_app.
    replace (filter is_number_input
               (shown (respond loading_animation model scaler s)))
      with (@nil element); [reflexivity |].
    symmetry.
    induction (shown (respond loading_animation model scaler s)) as [|e l IH];
      [reflexivity |].
    simpl in Hk |- *. apply orb_false_iff in Hk. destruct Hk as [He Hl].
    rewrite He. now apply IH.
Qed.

Lemma form_always_shown_witness :
  pick declared
    (shown (app (mkSession (Pickled [Fixtures.scaler9; Fixtures.model9])
                   Fixtures.untouched true))) =
    map interface_table trained_order.
Proof.
  apply (proj1 (@form_always_shown
                  (mkSession (Pickled [Fixtures.scaler9; Fixtures.model9])
                     Fixtures.untouched true)
                  Fixtures.scaler9 Fixtures.model9 eq_refl)).
Defined.

(** ** Runs without the button *)

Lemma tail_sleeps_not (r : Prediction) :
  slept (world_of ((display_results r ;; closing) fresh)) = [].
Proof.
  destruct r as [[|l rest] p1 p0]; [vm_compute; reflexivity |].
  cbv -[Z.eqb andb metric_delta check_float_between];
    repeat (match goal with
            | |- context [if ?c then _ else _] => destruct c
            end; cbv -[Z.eqb andb metric_delta check_float_between]);
    reflexivity.
Qed.

(** X5: a run the button did not trigger still calls [scaler.transform], on
    the assembled inputs, and makes no other call; it shows no verdict and
    no spinner and does not sleep; and when the scaler returns, it ends
    normally with the form, the button row and the footer on the page. *)
Theorem idle_run_scales_only (s : Session) (model scaler : Estimator) :
  rf_model_pkl s = Pickled [model; scaler] ->
  pressed s = false ->
  called (app s) = [CallTransform (input_data (collected s))] /\
  verdicts (shown (app s)) = ([], []) /\
  slept (world_of (app s fresh)) = [] /\
  (forall xs, transform scaler (input_data (collected s)) = inl xs ->
     answer_of (app s fresh) = Returned tt /\
     shown (app s) = front_page ++ button_page ++ closing_page).
Proof.
  intros Hf Hb.
  unfold called, shown. rewrite (app_pickled s Hf), world_of_graft, answer_of_graft.
  rewrite respond_runs, Hb.
  destruct (transform scaler (input_data (collected s))) as [xs | e].
  - split; [reflexivity | split; [reflexivity | split; [reflexivity |]]].
    intros xs' _. now split.
  - split; [reflexivity | split; [reflexivity | split; [reflexivity |]]].
    intros xs' H. discriminate H.
Qed.

Lemma idle_run_scales_only_witness :
  let s := mkSession (Pickled [Fixtures.model9; Fixtures.scaler9])
                     Fixtures.untouched false in
  called (app s) = [CallTransform (input_data (collected s))].
Proof.
  intro s.
  apply (proj1 (@idle_run_scales_only s Fixtures.model9 Fixtures.scaler9
                  eq_refl eq_refl)).
Defined.

(** X6: a run the button triggered sleeps a hundred times a hundredth of a
    second when the scaler returned, whether the model then answers or
    raises, and never sleeps otherwise. *)
Theorem request_sleeps_one_second (s : Session) (model scaler : Estimator) :
  rf_model_pkl s = Pickled [model; scaler] ->
  slept (world_of (app s fresh)) =
    match transform scaler (input_data (collected s)) with
    | inl _ => if pressed s then repeat 0.01 100 else []
    | inr _ => []
    end.
Proof.
  intros Hf.
  rewrite (app_pickled s Hf), world_of_graft, respond_runs.
  destruct (transform scaler (input_data (collected s))) as [xs | e];
    [| reflexivity].
  destruct (pressed s); [| reflexivity].
  destruct (predicted model xs) as [r | e]; [| reflexivity].
  rewrite world_of_graft. cbn [join slept]. rewrite tail_sleeps_not.
  apply app_nil_r.
Qed.

Lemma request_sleeps_one_second_witness :
  List.length (slept (world_of (app Fixtures.session9 fresh))) = 100%nat.
Proof.
  rewrite (@request_sleeps_one_second Fixtures.session9 Fixtures.model9
             Fixtures.scaler9 eq_refl).
  reflexivity.
Defined.

(** ** The end of a run *)

Lemma tail_footer (r : Prediction) :
  existsb is_footer (shown (display_results r ;; closing)) =
  is_returned (answer_of ((display_results r ;; closing) fresh)).
Proof.
  unfold shown.
  destruct r as [[|l rest] p1 p0]; [vm_compute; reflexivity |].
  cbv -[Z.eqb andb metric_delta check_float_between];
    repeat (match goal with
            | |- context [if ?c then _ else _] => destruct c
            end; cbv -[Z.eqb andb metric_delta check_float_between]);
    reflexivity.
Qed.

(** X7: the footer is on the page exactly when the run reached its last
    line: a run that stops at the loader, or that an exception of the
    loader, the scaler, the model or the presenter ends, shows no footer, and
    every run that returns shows it. *)
Theorem footer_iff_returned (s : Session) :
  existsb is_footer (shown (app s)) = is_returned (answer_of (app s fresh)).
Proof.
  destruct s as [f entries button].
  destruct f as [| | | [|a [|b [|c rest]]] | e | o];
    try (vm_compute; reflexivity); [| destruct e; vm_compute; reflexivity].
  unfold shown.
  rewrite (@app_pickled (mkSession (Pickled [a; b]) entries button) a b eq_refl).
  rewrite world_of_graft, answer_of_graft, respond_runs.
  cbn [join screen]. rewrite existsb_app.
  change (existsb is_footer front_page) with false. cbn [orb].
  destruct (transform b _) as [xs | e]; [| reflexivity].
  destruct (pressed _); [| reflexivity].
  destruct (predicted a xs) as [r | e]; [| reflexivity].
  rewrite world_of_graft, answer_of_graft. cbn [join screen].
  rewrite existsb_app.
  change (existsb is_footer (button_page ++ waited_page)) with false.
  apply tail_footer.
Qed.

(** ** The calls under the spinner *)

(** X8: the prediction is made exactly when [model.predict] returns and
    [model.predict_proba] returns a matrix whose first row has at least two
    entries; the record then holds the labels, the first entry of that row as
    the probability of not potable and the second as the probability of
    potable, and ignores every further row and column. *)
Theorem make_prediction_returns_iff (model : Estimator) (xs : matrix)
    (r : Prediction) (w : World) :
  answer_of (make_prediction loading_animation model xs w) = Returned r <->
  exists rest more,
    predict model xs = inl (pred r) /\
    predict_proba model xs =
      inl ((prob_not_potable r :: prob_potable r :: rest) :: more).
Proof.
  split.
  - rewrite answer_anywhere by auto with oblivious.
    rewrite (make_prediction_runs model xs oblivious_loading_animation
               loading_animation_runs).
    destruct (predicted model xs) as [r' | e] eqn:Hr; simpl; [| discriminate].
    intros [= <-]. now apply predicted_inv.
  - intros (rest & more & Hp & Hq).
    destruct r as [l p1 p0].
    exact (make_prediction_returns model xs w Hp Hq).
Qed.

Lemma make_prediction_returns_iff_witness :
  answer_of
    (make_prediction loading_animation Fixtures.model9
       [[0.0; 0.0; 0.0; 0.0; 0.0; 1.0; 0.0; 0.0; 0.0]] fresh) =
  Returned (mkPrediction [0%Z] 0.375 0.625).
Proof.
  apply (proj2 (make_prediction_returns_iff Fixtures.model9
                  [[0.0; 0.0; 0.0; 0.0; 0.0; 1.0; 0.0; 0.0; 0.0]]
                  (mkPrediction [0%Z] 0.375 0.625) fresh)).
  exists [], []. split; reflexivity.
Defined.

(** X9: the spinner is always closed and the bar always runs from 0 to 100,
    but the bar is emptied only when the prediction was made: when the model
    raises, or its probabilities cannot be read, the full bar stays on the
    page. *)
Theorem spinner_closed_bar_left (model : Estimator) (xs : matrix) :
  shown (make_prediction loading_animation model xs) =
    Spinner "" :: map Progress (range 101) ++
    (if is_returned (answer_of (make_prediction loading_animation model xs fresh))
     then [ProgressEmpty] else []) ++
    [SpinnerDone].
Proof.
  unfold shown.
  rewrite (make_prediction_runs model xs oblivious_loading_animation
             loading_animation_runs).
  destruct (predicted model xs); reflexivity.
Qed.

(** ** The presenter, continued *)

(** X10: the presenter finishes exactly when there is a label and both
    probabilities pass the test [st.progress] makes on a float: between 0.0
    and 1.0, or within [math.isclose] of one of the two with tolerances
    1e-9.  Without a label it ends by [IndexError]; with a probability that
    fails the test, as every NaN does, by Streamlit's exception.  In
    particular it finishes whenever both probabilities lie between 0.0 and
    1.0. *)
Theorem presenter_completes_iff (l : Z) (rest : labels)
    (p_potable p_not_potable : float) (w : World) :
  let r := mkPrediction (l :: rest) p_potable p_not_potable in
  answer_of (display_results (mkPrediction [] p_potable p_not_potable) w) =
    Raised IndexError /\
  answer_of (display_results r w) =
    (if check_float_between p_potable && check_float_between p_not_potable
     then Returned tt
     else Raised StreamlitAPIException) /\
  (((0.0 <=? p_potable) && (p_potable <=? 1.0)) &&
   ((0.0 <=? p_not_potable) && (p_not_potable <=? 1.0)) = true ->
   answer_of (display_results r w) = Returned tt) /\
  check_float_between nan = false.
Proof.
  cbv zeta.
  rewrite !(@answer_anywhere _ (display_results _) w)
    by apply oblivious_display_results.
  split; [reflexivity |].
  assert (H : answer_of
                (display_results
                   (mkPrediction (l :: rest) p_potable p_not_potable) fresh) =
              (if check_float_between p_potable &&
                  check_float_between p_not_potable
               then Returned tt
               else Raised StreamlitAPIException)).
  { unfold display_results, st_progress_float.
    cbn -[Z.eqb check_float_between]. destruct (l =? 1)%Z;
      cbn -[check_float_between];
      destruct (check_float_between p_potable); cbn -[check_float_between];
      destruct (check_float_between p_not_potable); reflexivity. }
  split; [exact H | split; [| reflexivity]].
  intro Hin. rewrite H. apply andb_true_iff in Hin. destruct Hin as [H1 H0].
  unfold check_float_between. now rewrite H1, H0.
Qed.

Lemma presenter_completes_iff_witness :
  answer_of (display_results (mkPrediction [1%Z] 0.75 0.25) fresh) =
    Returned tt.
Proof.
  apply (proj1 (proj2 (proj2
           (presenter_completes_iff 1%Z [] 0.75 0.25 fresh)))).
  reflexivity.
Defined.

(** X11: whatever the label is, and also when a probability then fails the
    test of [st.progress], the confidence breakdown shows two metrics: the
    probability of potable under "Safe to Drink" and the probability of not
    potable under "Unsafe to Drink", each with its distance from 0.5 as
    delta. *)
Theorem breakdown_shows_both (l : Z) (rest : labels)
    (p_potable p_not_potable : float) :
  pick breakdown_of
    (shown (display_results (mkPrediction (l :: rest) p_potable p_not_potable))) =
    [("Safe to Drink", p_potable, p_potable - 0.5);
     ("Unsafe to Drink", p_not_potable, p_not_potable - 0.5)].
Proof.
  unfold shown, display_results, st_progress_float.
  cbn -[Z.eqb metric_delta check_float_between].
  unfold metric_delta, delta_above, delta_otherwise.
  destruct (l =? 1)%Z; cbn -[gtb check_float_between];
    destruct (gtb p_potable 0.5), (gtb p_not_potable 0.5);
    destruct (check_float_between p_potable); cbn -[check_float_between];
    destruct (check_float_between p_not_potable);
    reflexivity.
Qed.

(** ** What the script uses of the pickle *)

Lemma with_spinner_cong {A} (body : string) (b1 b2 : M A) (w : World) :
  (forall w', b1 w' = b2 w') ->
  with_spinner body b1 w = with_spinner body b2 w.
Proof.
  intro H. unfold with_spinner.
  now rewrite (@bind_cong _ _ (emit (Spinner body)) (emit (Spinner body))
                 (fun _ => b1) (fun _ => b2) w eq_refl (fun _ => H)).
Qed.

(** X12: of the two unpickled objects the script uses [predict] and
    [predict_proba] of the first and [transform] of the second, and nothing
    else: two pickles whose objects agree on these three methods give the
    same run, whatever their other methods and attributes are. *)
Theorem run_uses_three_methods (model1 scaler1 model2 scaler2 : Estimator)
    (entries : field -> list float) (button : bool) (w : World) :
  (forall x, transform scaler1 x = transform scaler2 x) ->
  (forall x, predict model1 x = predict model2 x) ->
  (forall x, predict_proba model1 x = predict_proba model2 x) ->
  app (mkSession (Pickled [model1; scaler1]) entries button) w =
  app (mkSession (Pickled [model2; scaler2]) entries button) w.
Proof.
  intros Ht Hp Hq. unfold app, script.
  apply bind_cong; [reflexivity | intros _ w1]. cbn [rf_model_pkl].
  rewrite (bind_Ok (load_artifact (Pickled [model1; scaler1])) _ w1
             (a := (model1, scaler1)) (w' := w1)) by reflexivity.
  rewrite (bind_Ok (load_artifact (Pickled [model2; scaler2])) _ w1
             (a := (model2, scaler2)) (w' := w1)) by reflexivity.
  cbv beta iota.
  apply bind_cong; [reflexivity | intros _ w2].
  apply bind_cong.
  { rewrite (oblivious_sidebar _ w2),
      (oblivious_sidebar (mkSession (Pickled [model2; scaler2]) entries button) w2).
    now rewrite !sidebar_runs. }
  intros inputs w3.
  apply bind_cong.
  { unfold scaler_transform. now rewrite Ht. }
  intros xs w4.
  apply bind_cong; [| reflexivity].
  unfold prediction_section.
  apply bind_cong; [reflexivity | intros _ w5].
  apply bind_cong; [reflexivity | intros _ w6].
  apply bind_cong; [reflexivity | intros b w7]. cbn [pressed].
  destruct b; [| reflexivity].
  apply bind_cong; [| reflexivity].
  unfold make_prediction. apply with_spinner_cong. intros w8.
  apply bind_cong; [reflexivity | intros _ w9].
  apply bind_cong.
  { unfold model_predict. now rewrite Hp. }
  intros l w10.
  apply bind_cong; [| reflexivity].
  unfold model_predict_proba. now rewrite Hq.
Qed.

Lemma run_uses_three_methods_witness :
  app (mkSession
         (Pickled [mkEstimator 0 (fun _ => inl []) (predict Fixtures.model9)
                     (predict_proba Fixtures.model9);
                   mkEstimator 3 (transform Fixtures.scaler9)
                     (fun _ => inl [1%Z]) (fun _ => inr KeyError)])
         Fixtures.untouched true) fresh =
  app Fixtures.session9 fresh.
Proof.
  apply run_uses_three_methods; intro x; reflexivity.
Defined.

(** ** A scaler that raises *)

(** X13: when [scaler.transform] raises, the page holds the header and the
    form and nothing more, whether the button had been pressed or not: the
    Analyze button is not rendered, and the model is never called. *)
Theorem scaler_failure_hides_button (s : Session) (model scaler : Estimator)
    (e : exn) :
  rf_model_pkl s = Pickled [model; scaler] ->
  transform scaler (input_data (collected s)) = inr e ->
  shown (app s) = front_page /\
  existsb is_button (shown (app s)) = false /\
  called (app s) = [CallTransform (input_data (collected s))].
Proof.
  intros Hf Ht. unfold shown, called.
  rewrite (app_pickled s Hf), world_of_graft, respond_runs, Ht.
  cbn [world_of join screen calls]. rewrite app_nil_r.
  split; [reflexivity | split; reflexivity].
Qed.

Lemma scaler_failure_hides_button_witness :
  shown (app (mkSession (Pickled [Fixtures.scaler9; Fixtures.model9])
                Fixtures.untouched true)) = front_page.
Proof.
  apply (proj1 (@scaler_failure_hides_button
                  (mkSession (Pickled [Fixtures.scaler9; Fixtures.model9])
                     Fixtures.untouched true)
                  Fixtures.scaler9 Fixtures.model9 AttributeError
                  eq_refl eq_refl)).
Defined.
